(** * The mlo-crm helper scripts: record lookup and import patching

    The repository holds five stand-alone Python scripts.  Three of them
    ([get_feature_30.py], [query_feature.py], [get-feature-242.py]) open an
    SQLite file with the [sqlite3] module, select one row of the [features]
    table by its identifier and print it; [get-feature-74.py] does the same
    through a data-access layer ([api.database]); [fix-imports.py] inserts
    two lines into a TypeScript file.

    The scripts are embedded as programs of a small state-and-exception
    monad over a [world]: the files on disk, the open store handles, the text
    written to standard output and the log of calls made to the store. *)

From Stdlib Require Import ZArith String Ascii List Lia.
From stdpp Require Import gmap strings list pretty.

Local Open Scope Z_scope.
Local Open Scope string_scope.

(** ** Text *)

(** Python strings are modelled as Rocq strings, one character per code
    point below 256.  [nl] is the line feed that [print] appends and that
    ends the literals of [fix-imports.py]; [dq] is the double quote. *)
Definition nl : string := String (ascii_of_nat 10) EmptyString.
Definition dq : string := String (ascii_of_nat 34) EmptyString.

(** [pat in line] on Python strings: [pat] occurs as a contiguous substring. *)
Fixpoint contains (pat s : string) : bool :=
  String.prefix pat s ||
  match s with
  | EmptyString => false
  | String _ s' => contains pat s'
  end.

(** SQLite compares the names of tables and columns without regard to the
    case of the ASCII letters. *)
Definition lower (c : ascii) : ascii :=
  let n := nat_of_ascii c in
  if (65 <=? n)%nat && (n <=? 90)%nat then ascii_of_nat (n + 32) else c.

Fixpoint fold_case (s : string) : string :=
  match s with
  | EmptyString => EmptyString
  | String c s' => String (lower c) (fold_case s')
  end.

(** ** Values stored in a row *)

(** The columns of the [features] table hold integers (booleans are stored
    as 0 and 1), text, or NULL, which [sqlite3] hands to Python as [int],
    [str] and [None]. *)
Inductive value : Type :=
  | VNull
  | VInt (z : Z)
  | VText (s : string).

#[global] Instance value_eq_dec : EqDecision value.
Proof. solve_decision. Defined.

#[global] Instance value_inhabited : Inhabited value := populate VNull.

(** [str(v)], as used by the replacement fields of an f-string. *)
Definition py_str (v : value) : string :=
  match v with
  | VNull => "None"
  | VInt z => pretty z
  | VText s => s
  end.

(** ** JSON rendering ([json.dumps] with [indent=2], [ensure_ascii] on) *)

Definition hex_digit (n : N) : ascii :=
  match n with
  | 0 => "0" | 1 => "1" | 2 => "2" | 3 => "3" | 4 => "4" | 5 => "5"
  | 6 => "6" | 7 => "7" | 8 => "8" | 9 => "9" | 10 => "a" | 11 => "b"
  | 12 => "c" | 13 => "d" | 14 => "e" | _ => "f"
  end%char%N.

(** One character of a JSON string: the two-character escapes of
    [json.encoder.ESCAPE_DCT], a [\u00XX] escape for every other character
    outside the printable ASCII range, and the character itself otherwise. *)
Definition json_escape_char (c : ascii) : string :=
  let n := N_of_ascii c in
  let bs := String (ascii_of_nat 92) EmptyString in
  if (n =? 34)%N then bs +:+ dq
  else if (n =? 92)%N then bs +:+ bs
  else if (n =? 8)%N then bs +:+ "b"
  else if (n =? 12)%N then bs +:+ "f"
  else if (n =? 10)%N then bs +:+ "n"
  else if (n =? 13)%N then bs +:+ "r"
  else if (n =? 9)%N then bs +:+ "t"
  else if ((n <? 32) || (126 <? n))%N then
    bs +:+ "u00" +:+
    String (hex_digit (n / 16)) (String (hex_digit (n mod 16)) EmptyString)
  else String c EmptyString.

Fixpoint json_escape (s : string) : string :=
  match s with
  | EmptyString => EmptyString
  | String c s' => json_escape_char c +:+ json_escape s'
  end.

Definition json_string (s : string) : string := dq +:+ json_escape s +:+ dq.

Definition json_value (v : value) : string :=
  match v with
  | VNull => "null"
  | VInt z => pretty z
  | VText s => json_string s
  end.

(** A Python dict literal with distinct keys keeps its entries in the order
    they are written; it is modelled as an association list. *)
Definition dict : Type := list (string * value).

Definition json_item (kv : string * value) : string :=
  "  " +:+ json_string kv.1 +:+ ": " +:+ json_value kv.2.

Fixpoint json_items (d : list (string * value)) : string :=
  match d with
  | [] => EmptyString
  | [kv] => json_item kv
  | kv :: d' => json_item kv +:+ "," +:+ nl +:+ json_items d'
  end.

(** [json.dumps(d, indent=2)] for a dict of scalar values. *)
Definition json_dumps (d : dict) : string :=
  match d with
  | [] => "{}"
  | _ => "{" +:+ nl +:+ json_items d +:+ nl +:+ "}"
  end.


(** ** The store and the world around a script *)

(** A row maps column names to values; a table has a schema (its column
    names) and its rows in scan order. *)
Record table : Type := Table {
  columns : list string;
  rows : list (gmap string value)
}.

(** What [sqlite3] may find at a path.  A path absent from the file system
    map is a location with no file, in a directory where one can be
    created. *)
Inductive file : Type :=
  | Unopenable                              (* permission denied, missing directory *)
  | NotADatabase                            (* a file whose header is not SQLite's *)
  | Database (tables : gmap string table).  (* an SQLite database: its tables and
                                               records, not its bytes *)

(** [SELECT sel_columns FROM sel_table WHERE id = sel_id]. *)
Record select : Type := Select {
  sel_columns : list string;
  sel_table : string;
  sel_id : Z
}.

(** Calls that reach the store, in the order they are made. *)
Inductive event : Type :=
  | EvConnect (path : string)
  | EvExecute (path : string) (q : select)
  | EvFetch (path : string)
  | EvClose (path : string)
  | EvSession (dir : string)
  | EvSessionClose (dir : string).

Record world : Type := World {
  fs : gmap string file;      (* the files, by path *)
  handles : list string;      (* open store handles, by the path they are on *)
  stdout : string;            (* text written to standard output *)
  trace : list event          (* store calls made so far, oldest first *)
}.

Inductive exn : Type :=
  | OperationalError (msg : string)   (* sqlite3.OperationalError *)
  | DatabaseError (msg : string)      (* sqlite3.DatabaseError *)
  | IndexError                        (* tuple index out of range *)
  | FileNotFoundError                 (* open() of a missing file *)
  | ApiError (msg : string).          (* raised inside api.database *)

Inductive result (A : Type) : Type :=
  | Ok (a : A)
  | Raise (e : exn).
Arguments Ok {A} a.
Arguments Raise {A} e.

(** ** Programs: state passing with exceptions *)

Definition py (A : Type) : Type := world -> result A * world.

Definition ret {A} (a : A) : py A := fun w => (Ok a, w).

Definition raise {A} (e : exn) : py A := fun w => (Raise e, w).

Definition bind {A B} (m : py A) (k : A -> py B) : py B := fun w =>
  match m w with
  | (Ok a, w') => k a w'
  | (Raise e, w') => (Raise e, w')
  end.

Notation "'do' x <- m ; k" := (bind m (fun x => k))
  (at level 10, x name, m at level 100, k at level 200).
Notation "m ;; k" := (bind m (fun _ => k))
  (at level 100, k at level 200, right associativity).

(** [try: body finally: fin].  [fin] runs whether or not [body] raised; an
    exception of [fin] replaces the one of [body]. *)
Definition try_finally {A} (body : py A) (fin : py unit) : py A := fun w =>
  match body w with
  | (r, w') =>
      match fin w' with
      | (Ok _, w'') => (r, w'')
      | (Raise e, w'') => (Raise e, w'')
      end
  end.

Definition log (ev : event) : py unit := fun w =>
  (Ok tt, World (fs w) (handles w) (stdout w) (trace w ++ [ev])).

(** [print(s)]. *)
Definition print (s : string) : py unit := fun w =>
  (Ok tt, World (fs w) (handles w) (stdout w +:+ s +:+ nl) (trace w)).

(** [t[i]] on a tuple. *)
Definition item (t : list value) (i : nat) : py value :=
  match t !! i with
  | Some v => ret v
  | None => raise IndexError
  end.

(** The truth value of what [fetchone] returns: [None] and the empty tuple
    are false. *)
Definition truthy (row : option (list value)) : bool :=
  match row with
  | Some (_ :: _) => true
  | _ => false
  end.

(** ** The [sqlite3] module *)

Record connection : Type := Connection { conn_path : string }.

(** A cursor and the rows its last statement has left to fetch.
    [cursor.execute] updates the cursor object in place; here it returns the
    updated cursor. *)
Record cursor : Type := Cursor {
  cur_conn : connection;
  cur_rows : list (list value)
}.

(** [sqlite3.connect(path)] opens the file for reading and writing and
    creates it, empty, when nothing is there; the header of an existing file
    is not read yet. *)
Definition connect (path : string) : py connection :=
  log (EvConnect path) ;;
  fun w =>
    match fs w !! path with
    | Some Unopenable =>
        (Raise (OperationalError "unable to open database file"), w)
    | Some _ =>
        (Ok (Connection path),
         World (fs w) (path :: handles w) (stdout w) (trace w))
    | None =>
        (Ok (Connection path),
         World (<[path := Database ∅]> (fs w)) (path :: handles w)
               (stdout w) (trace w))
    end.

(** [conn.cursor()]. *)
Definition new_cursor (conn : connection) : py cursor := ret (Cursor conn []).

(** The columns a statement names: its result columns, then the [id] of its
    WHERE clause. *)
Definition referenced (q : select) : list string := sel_columns q ++ ["id"].

Definition matches (q : select) (r : gmap string value) : bool :=
  bool_decide (r !! "id" = Some (VInt (sel_id q))).

(** The tables of a database as the statements of SQL see them: every
    table and column name folded.  (SQLite refuses a schema with two tables,
    or a table with two columns, whose names differ by case only, so nothing
    is lost.) *)
Definition canon_row (r : gmap string value) : gmap string value :=
  list_to_map ((fun kv => (fold_case kv.1, kv.2)) <$> map_to_list r).

Definition canon_table (t : table) : table :=
  Table (fold_case <$> columns t) (canon_row <$> rows t).

Definition schema (tabs : gmap string table) : gmap string table :=
  list_to_map ((fun kv => (fold_case kv.1, canon_table kv.2)) <$> map_to_list tabs).

(** The table a name of a statement stands for. *)
Definition lookup_table (name : string) (tabs : gmap string table) : option table :=
  schema tabs !! fold_case name.

Definition project (q : select) (r : gmap string value) : list value :=
  map (fun c => default VNull (r !! fold_case c)) (sel_columns q).

(** What a statement yields on a database: the error of preparing it, or
    its result rows.  The error names the table or the column as the
    statement spells it. *)
Definition select_rows (q : select) (tabs : gmap string table)
    : result (list (list value)) :=
  match lookup_table (sel_table q) tabs with
  | None => Raise (OperationalError ("no such table: " +:+ sel_table q))
  | Some t =>
      match find (fun c => bool_decide (fold_case c ∉ columns t)) (referenced q) with
      | Some c => Raise (OperationalError ("no such column: " +:+ c))
      | None => Ok (map (project q) (filter (fun r => matches q r = true) (rows t)))
      end
  end.

(** [cursor.execute(sql)]. *)
Definition execute (cur : cursor) (q : select) : py cursor :=
  let path := conn_path (cur_conn cur) in
  log (EvExecute path q) ;;
  fun w =>
    match fs w !! path with
    | Some (Database tabs) =>
        match select_rows q tabs with
        | Ok rs => (Ok (Cursor (cur_conn cur) rs), w)
        | Raise e => (Raise e, w)
        end
    | Some NotADatabase => (Raise (DatabaseError "file is not a database"), w)
    | _ => (Raise (OperationalError "unable to open database file"), w)
    end.

(** [cursor.fetchone()]: the next row of the result, or [None]. *)
Definition fetchone (cur : cursor) : py (option (list value)) :=
  log (EvFetch (conn_path (cur_conn cur))) ;;
  ret (head (cur_rows cur)).

Fixpoint release (path : string) (hs : list string) : list string :=
  match hs with
  | [] => []
  | h :: hs' => if bool_decide (h = path) then hs' else h :: release path hs'
  end.

(** [conn.close()]. *)
Definition close (conn : connection) : py unit :=
  log (EvClose (conn_path conn)) ;;
  fun w =>
    (Ok tt, World (fs w) (release (conn_path conn) (handles w)) (stdout w) (trace w)).

(** ** The lookup scripts over [sqlite3] *)

(** [get_feature_30.py]. *)
Definition get_feature_30 : py unit :=
  do conn <- connect "features.db";
  do cur <- new_cursor conn;
  do cur <- execute cur
    (Select ["id"; "priority"; "category"; "name"; "description"; "steps"]
            "features" 30);
  do row <- fetchone cur;
  (if truthy row then
     let row := default [] row in
     do v <- item row 0; print ("ID: " +:+ py_str v) ;;
     do v <- item row 1; print ("Priority: " +:+ py_str v) ;;
     do v <- item row 2; print ("Category: " +:+ py_str v) ;;
     do v <- item row 3; print ("Name: " +:+ py_str v) ;;
     do v <- item row 4; print ("Description: " +:+ py_str v) ;;
     do v <- item row 5; print ("Steps: " +:+ py_str v)
   else
     print "Feature #30 not found") ;;
  close conn.

(** The store location written in [query_feature.py]. *)
Definition query_feature_path : string :=
  "C:\Users\207ds\Desktop\Apps\mlodash-new\mlo-dash-new\features.db".

(** [query_feature.py]. *)
Definition query_feature : py unit :=
  do conn <- connect query_feature_path;
  do cursor <- new_cursor conn;
  do cursor <- execute cursor
    (Select ["id"; "category"; "name"; "description"; "steps"] "features" 242);
  do result <- fetchone cursor;
  (if truthy result then
     let result := default [] result in
     do v <- item result 0; print ("id: " +:+ py_str v) ;;
     do v <- item result 1; print ("category: " +:+ py_str v) ;;
     do v <- item result 2; print ("name: " +:+ py_str v) ;;
     do v <- item result 3; print ("description: " +:+ py_str v) ;;
     do v <- item result 4; print ("steps: " +:+ py_str v)
   else
     print "No feature found with id=242") ;;
  close conn.

(** [get-feature-242.py]. *)
Definition get_feature_242 : py unit :=
  do conn <- connect "features.db";
  do cursor <- new_cursor conn;
  do cursor <- execute cursor
    (Select ["id"; "category"; "name"; "description"; "steps"; "passes";
             "in_progress"] "features" 242);
  do row <- fetchone cursor;
  (if truthy row then
     let row := default [] row in
     do v0 <- item row 0;
     do v1 <- item row 1;
     do v2 <- item row 2;
     do v3 <- item row 3;
     do v4 <- item row 4;
     do v5 <- item row 5;
     do v6 <- item row 6;
     let feature : dict :=
       [("id", v0); ("category", v1); ("name", v2); ("description", v3);
        ("steps", v4); ("passes", v5); ("in_progress", v6)] in
     print (json_dumps feature)
   else
     print "Feature not found") ;;
  close conn.

(** ** Running a script as a process *)

(** A process starts on the files of the disk with no handle open and
    nothing written. *)
Definition boot (disk : gmap string file) : world := World disk [] "" [].

Definition run (script : py unit) (disk : gmap string file) : result unit * world :=
  script (boot disk).

(** The exit status of the interpreter: 0 when the script runs to its end, 1
    when an exception reaches the top level (the traceback goes to standard
    error). *)
Definition exit_code (r : result unit) : Z :=
  match r with
  | Ok _ => 0
  | Raise _ => 1
  end.

(** ** The lookup script over [api.database] *)

Definition lift {A} (r : result A) : py A := fun w => (r, w).

Section get_feature_74.

(** [api.database] (under [autocoder-master]) is not among the sources.
    The script is embedded over any behaviour of what it imports from
    there: every call either returns or raises, as the variables below
    say.  [Feature] is the class of the mapped rows, [feature_bool] the
    truth value of an instance, [environ] the process environment and
    [resolve] is [Path.resolve].  The [import] statements themselves are
    taken to succeed. *)
Context {Feature : Type}.
Variable environ : gmap string string.
Variable resolve : string -> string.
Variable create_database : string -> result unit.
Variable session_maker : result unit.
Variable query_first : Z -> result (option Feature).
Variable feature_bool : Feature -> bool.
Variable to_json : Feature -> result string.
Variable session_close : result unit.

(** [session = session_maker()]: the session is the handle on the store. *)
Definition open_session (dir : string) : py string :=
  log (EvSession dir) ;;
  lift session_maker ;;
  fun w => (Ok dir, World (fs w) (dir :: handles w) (stdout w) (trace w)).

(** [session.close()]. *)
Definition close_session (session : string) : py unit :=
  log (EvSessionClose session) ;;
  lift session_close ;;
  fun w => (Ok tt, World (fs w) (release session (handles w)) (stdout w) (trace w)).

(** [get-feature-74.py]. *)
Definition get_feature_74 : py unit :=
  let PROJECT_DIR := resolve (default "." (environ !! "PROJECT_DIR")) in
  lift (create_database PROJECT_DIR) ;;
  do session <- open_session PROJECT_DIR;
  try_finally
    (do feature <- lift (query_first 74);
     match feature with
     | Some f =>
         if feature_bool f then
           do text <- lift (to_json f); print text
         else print "Feature #74 not found"
     | None => print "Feature #74 not found"
     end)
    (close_session session).

End get_feature_74.

(** ** [fix-imports.py] *)

Module FixImports.

(** [f.readlines()]: the content cut after every line feed, each line
    keeping its line feed; a last line may lack one.  A file content is the
    text as Python sees it in text mode, line ends already translated. *)
Fixpoint readlines (s : string) : list string :=
  match s with
  | EmptyString => []
  | String c s' =>
      if Ascii.eqb c (ascii_of_nat 10) then String c EmptyString :: readlines s'
      else
        match readlines s' with
        | [] => [String c EmptyString]
        | l :: ls => String c l :: ls
        end
  end.

(** [f.writelines(lines)]: the lines one after the other, nothing added. *)
Fixpoint writelines (lines : list string) : string :=
  match lines with
  | [] => EmptyString
  | l :: ls => l +:+ writelines ls
  end.

(** [lines.insert(i, x)]; an index past the end appends. *)
Definition py_insert (i : nat) (x : string) (lines : list string) : list string :=
  take i lines ++ x :: drop i lines.

(** [enumerate(lines)], counting from [i]. *)
Fixpoint enumerate (i : nat) (lines : list string) : list (nat * string) :=
  match lines with
  | [] => []
  | l :: ls => (i, l) :: enumerate (S i) ls
  end.

(** The body of one [for i, line in enumerate(lines)] loop over what is
    left to visit: at the first line holding [pat], insert [new] after it
    and [break]. *)
Fixpoint scan (pat new : string) (lines : list string)
    (todo : list (nat * string)) : list string :=
  match todo with
  | [] => lines
  | (i, line) :: todo' =>
      if contains pat line then py_insert (i + 1) new lines
      else scan pat new lines todo'
  end.

Definition insert_after (pat new : string) (lines : list string) : list string :=
  scan pat new lines (enumerate 0 lines).

Definition target : string := "frontend/src/pages/ClientDetails.tsx".
Definition progress_pat : string := "  Progress,".
Definition box_line : string := "  Box," +:+ nl.
Definition dates_pat : string := "from '@mantine/dates';".
Definition dropzone_line : string :=
  "import { Dropzone, FileWithPath } from '@mantine/dropzone';" +:+ nl.

(** The lines the script hands to [writelines], from those it read. *)
Definition patch (lines : list string) : list string :=
  insert_after dates_pat dropzone_line (insert_after progress_pat box_line lines).

(** The text files by path, and what the process wrote to standard
    output. *)
Record state : Type := State {
  files : gmap string string;
  printed : string
}.

(** The script, on the text files of the disk.  Opening a missing file
    for reading raises; an existing file can be read and rewritten. *)
Definition fix_imports (st : state) : result unit * state :=
  match files st !! target with
  | None => (Raise FileNotFoundError, st)
  | Some content =>
      let lines := patch (readlines content) in
      (Ok tt,
       State (<[target := writelines lines]> (files st))
             (printed st +:+ "Imports added successfully" +:+ nl))
  end.

(** What the script is meant to do with one pattern, in the words of its
    comments: [new] is added once, right after the first line that holds
    [pat], and the lines are left as they are when no line holds it. *)
Inductive inserted_once (pat new : string) : list string -> list string -> Prop :=
  | no_match lines :
      Forall (fun line => contains pat line = false) lines ->
      inserted_once pat new lines lines
  | after_first before line after :
      Forall (fun line => contains pat line = false) before ->
      contains pat line = true ->
      inserted_once pat new (before ++ line :: after)
                            (before ++ line :: new :: after).

(** A page with both anchors, for the examples. *)
Definition sample_page : string :=
  "import {" +:+ nl +:+ "  Progress," +:+ nl +:+ "} from '@mantine/core';" +:+ nl +:+
  "import { DatePicker } from '@mantine/dates';" +:+ nl +:+ "export {};" +:+ nl.

Definition sample_state : state := State {[ target := sample_page ]} "".

End FixImports.

(** ** The lookup contract, in the words of the specification *)

(** The two output shapes: a [field: value] line per requested field, or a
    structured block. *)
Inductive layout : Type := Lines | Block.

(** A lookup script with what the contract needs to know of it: the store
    location, the request (the fields in order, the identifier), the label
    each field is printed under, the output shape and the absence message. *)
Record lookup : Type := Lookup {
  script : py unit;
  source : string;
  request : select;
  labels : list string;
  shape : layout;
  absence : string
}.

Definition lookup_30 : lookup :=
  Lookup get_feature_30 "features.db"
    (Select ["id"; "priority"; "category"; "name"; "description"; "steps"]
            "features" 30)
    ["ID"; "Priority"; "Category"; "Name"; "Description"; "Steps"]
    Lines "Feature #30 not found".

Definition lookup_query : lookup :=
  Lookup query_feature query_feature_path
    (Select ["id"; "category"; "name"; "description"; "steps"] "features" 242)
    ["id"; "category"; "name"; "description"; "steps"]
    Lines "No feature found with id=242".

Definition lookup_242 : lookup :=
  Lookup get_feature_242 "features.db"
    (Select ["id"; "category"; "name"; "description"; "steps"; "passes";
             "in_progress"] "features" 242)
    ["id"; "category"; "name"; "description"; "steps"; "passes"; "in_progress"]
    Block "Feature not found".

(** The lookup scripts that talk to [sqlite3] themselves. *)
Definition sqlite_lookups : list lookup := [lookup_30; lookup_query; lookup_242].

(** The condition of the store at a location, for a request: it cannot be
    opened as a database (no file, no permission, no SQLite header), it lacks
    the table or a requested field, or it can be read; [Readable t] carries
    the table as the statement sees it, its names folded. *)
Inductive condition : Type :=
  | SourceUnavailable
  | SchemaMismatch
  | Readable (t : table).

Definition has_columns (t : table) (q : select) : bool :=
  forallb (fun c => bool_decide (fold_case c ∈ columns t)) (referenced q).

Definition condition_of (disk : gmap string file) (path : string) (q : select)
    : condition :=
  match disk !! path with
  | Some (Database tabs) =>
      match lookup_table (sel_table q) tabs with
      | Some t => if has_columns t q then Readable t else SchemaMismatch
      | None => SchemaMismatch
      end
  | _ => SourceUnavailable
  end.

(** The value of a field of a record, the field named as in a statement. *)
Definition cell (r : gmap string value) (c : string) : value :=
  default VNull (r !! fold_case c).

(** The identifier of a record. *)
Definition ident (r : gmap string value) : option value := r !! "id".

(** Identifiers are unique in a table. *)
Definition unique_ids (t : table) : Prop := NoDup (ident <$> rows t).

Definition field_line (label : string) (v : value) : string :=
  label +:+ ": " +:+ py_str v +:+ nl.

(** The rendering of the requested values, one per label, in order. *)
Definition render (l : lookup) (vals : list value) : string :=
  match shape l with
  | Lines => String.concat "" (zip_with field_line (labels l) vals)
  | Block => json_dumps (zip (labels l) vals) +:+ nl
  end.

(** The rendering of a record: its requested fields, in the order of the
    request. *)
Definition render_record (l : lookup) (r : gmap string value) : string :=
  render l (map (cell r) (sel_columns (request l))).

(** The first record of a table that a request selects. *)
Definition first_match (q : select) (t : table) : option (gmap string value) :=
  head (filter (fun r => matches q r = true) (rows t)).

(** What a run of a lookup script comes to, case by case on the disk. *)
Definition expected (l : lookup) (disk : gmap string file) : result unit * world :=
  let p := source l in
  let q := request l in
  match disk !! p with
  | None =>
      (Raise (OperationalError ("no such table: " +:+ sel_table q)),
       World (<[p := Database ∅]> disk) [p] "" [EvConnect p; EvExecute p q])
  | Some Unopenable =>
      (Raise (OperationalError "unable to open database file"),
       World disk [] "" [EvConnect p])
  | Some NotADatabase =>
      (Raise (DatabaseError "file is not a database"),
       World disk [p] "" [EvConnect p; EvExecute p q])
  | Some (Database tabs) =>
      match select_rows q tabs with
      | Raise e => (Raise e, World disk [p] "" [EvConnect p; EvExecute p q])
      | Ok _ =>
          (Ok tt,
           World disk []
             (match lookup_table (sel_table q) tabs ≫= first_match q with
              | Some r => render_record l r
              | None => absence l +:+ nl
              end)
             [EvConnect p; EvExecute p q; EvFetch p; EvClose p])
      end
  end.

(** ** A store used by the examples *)

Definition widget : gmap string value :=
  {[ "id" := VInt 30; "priority" := VInt 1; "category" := VText "core";
     "name" := VText "Widget"; "description" := VText "desc";
     "steps" := VText "step1;step2"; "passes" := VInt 0;
     "in_progress" := VInt 1 ]}.

Definition features_schema : list string :=
  ["id"; "priority"; "category"; "name"; "description"; "steps"; "passes";
   "in_progress"].

Definition features_table : table := Table features_schema [widget].

(** A disk holding the store at both locations the scripts use. *)
Definition sample_disk : gmap string file :=
  {[ "features.db" := Database {[ "features" := features_table ]};
     query_feature_path := Database {[ "features" := features_table ]} ]}.


(** The same store at the location of [query_feature.py], its table
    lacking the [steps] column. *)
Definition narrow_table : table :=
  Table ["id"; "category"; "name"; "description"] [widget].

Definition narrow_disk : gmap string file :=
  {[ query_feature_path := Database {[ "features" := narrow_table ]} ]}.

(** A store as a schema written with capitals leaves it: the table is
    [Features], its columns are [ID], [Category], [Name], ...  Its one
    record has the identifier 242, a NULL field and text with characters
    that a structured rendering has to escape: double quotes, a backslash,
    a tab, a line feed, an [e] with acute accent (code point 233) and the
    delete character (code point 127). *)
Definition gizmo : gmap string value :=
  {[ "ID" := VInt 242; "Priority" := VInt 3; "Category" := VText "ui";
     "Name" := VText ("Say " +:+ dq +:+ "hi" +:+ dq);
     "Description" :=
       VText ("a\b" +:+ String (ascii_of_nat 9) "c" +:+ nl +:+ "d" +:+
              String (ascii_of_nat 233) (String (ascii_of_nat 127) ""));
     "Steps" := VNull; "Passes" := VInt 0; "In_Progress" := VInt 1 ]}.

Definition catalog_table : table :=
  Table ["ID"; "Priority"; "Category"; "Name"; "Description"; "Steps";
         "Passes"; "In_Progress"] [gizmo].

Definition catalog_disk : gmap string file :=
  {[ "features.db" := Database {[ "Features" := catalog_table ]} ]}.

(** Whether the absence message of a lookup names the identifier it asked
    for, in decimal. *)
Definition names_identifier (l : lookup) : bool :=
  contains (pretty (sel_id (request l))) (absence l).

(** A second run finds the disk as the first one left it. *)
Definition rerun (l : lookup) (disk : gmap string file) : result unit * world :=
  run (script l) (fs (run (script l) disk).2).

(** Concrete behaviours of [api.database] for the examples: every call
    returns and feature 74 is absent; or the store cannot be set up. *)
Definition api_absent : Z -> result (option unit) := fun _ => Ok None.
Definition api_create_ok : string -> result unit := fun _ => Ok tt.
Definition api_create_fails : string -> result unit :=
  fun _ => Raise (ApiError "unable to open database file").
Definition api_to_json : unit -> result string := fun _ => Ok "{}".

(** ** Further vocabulary for [fix-imports.py] *)

(** A line as [readlines] gives it when it is not cut short by the end of
    the text: characters other than the line feed, then one line feed. *)
Fixpoint ends_line (s : string) : bool :=
  match s with
  | EmptyString => false
  | String c s' =>
      if Ascii.eqb c (ascii_of_nat 10) then
        match s' with EmptyString => true | String _ _ => false end
      else ends_line s'
  end.

(** A text that is empty or ends with a line feed. *)
Fixpoint newline_terminated (s : string) : bool :=
  match s with
  | EmptyString => true
  | String c s' =>
      match s' with
      | EmptyString => Ascii.eqb c (ascii_of_nat 10)
      | String _ _ => newline_terminated s'
      end
  end.

(** A text without a line feed. *)
Fixpoint one_line (s : string) : bool :=
  match s with
  | EmptyString => true
  | String c s' => negb (Ascii.eqb c (ascii_of_nat 10)) && one_line s'
  end.

(** [s'] is [s] with the text [new] put in at one place, when [found];
    it is [s] otherwise. *)
Definition spliced (found : bool) (new s s' : string) : Prop :=
  if found then exists a b, s = a +:+ b /\ s' = a +:+ new +:+ b
  else s' = s.

(** How many of the two patterns of [fix-imports.py] a text holds. *)
Definition anchors (content : string) : nat :=
  (if contains FixImports.progress_pat content then 1 else 0) +
  (if contains FixImports.dates_pat content then 1 else 0).

(** The state after [n] runs of [fix-imports.py], one after the other. *)
Definition runs (n : nat) (st : FixImports.state) : FixImports.state :=
  Nat.iter n (fun s => (FixImports.fix_imports s).2) st.

(** ** A store with a duplicated identifier, for the examples *)




(** * Properties *)

(** ** Text and list helpers *)

Lemma append_assoc (s1 s2 s3 : string) : (s1 +:+ s2) +:+ s3 = s1 +:+ (s2 +:+ s3).
Proof.
  induction s1 as [|c s1 IH]; [reflexivity|]. exact (f_equal (String c) IH).
Qed.

(** ** The runs of the [sqlite3] scripts, case by case *)

Lemma select_rows_head q tabs rs :
  select_rows q tabs = Ok rs ->
  head rs = project q <$> (lookup_table (sel_table q) tabs ≫= first_match q).
Proof.
  unfold select_rows, first_match.
  destruct (lookup_table (sel_table q) tabs) as [t|]; [|discriminate].
  destruct (find _ _); [discriminate|]. intros [= <-]. simpl.
  destruct (filter _ (rows t)); reflexivity.
Qed.

(** Symbolic execution of a lookup script from [boot]: unfold the monad and
    the [sqlite3] calls, then split on what the disk has at the location. *)
Ltac run_lookup body path disk :=
  unfold expected; simpl (source _); simpl (request _); simpl (absence _);
  cbv [run body boot bind connect execute new_cursor ret log fetchone close
       fs handles stdout trace conn_path cur_conn cur_rows];
  let E := fresh "E" in
  let Es := fresh "Es" in
  destruct (disk !! path) as [[| |?tabs]|] eqn:E;
  [ reflexivity
  | rewrite E; reflexivity
  | rewrite E;
    match goal with
    | |- context [select_rows ?q ?t] =>
        destruct (select_rows q t) as [?rs|?e] eqn:Es; [|reflexivity];
        rewrite (select_rows_head _ _ _ Es);
        destruct (lookup_table _ t ≫= _) as [?r|]; [|reflexivity]
    end
  | rewrite lookup_insert_eq; reflexivity ].

Ltac render_lines :=
  unfold render_record, render; simpl (shape _); simpl (labels _);
  simpl (request _);
  cbv [zip_with map sel_columns String.concat field_line cell];
  rewrite !append_assoc; reflexivity.

Lemma run_get_feature_30 disk : run get_feature_30 disk = expected lookup_30 disk.
Proof.
  run_lookup get_feature_30 "features.db" disk.
  simpl. do 2 f_equal. render_lines.
Qed.

Lemma run_query_feature disk : run query_feature disk = expected lookup_query disk.
Proof.
  run_lookup query_feature query_feature_path disk.
  simpl. do 2 f_equal. render_lines.
Qed.

Lemma run_get_feature_242 disk : run get_feature_242 disk = expected lookup_242 disk.
Proof.
  run_lookup get_feature_242 "features.db" disk.
  reflexivity.
Qed.

(** Every [sqlite3] lookup script runs as [expected] says. *)
Lemma run_expected l disk :
  l ∈ sqlite_lookups -> run (script l) disk = expected l disk.
Proof.
  unfold sqlite_lookups. rewrite !elem_of_cons, elem_of_nil.
  intros [->|[->|[->|[]]]].
  - apply run_get_feature_30.
  - apply run_query_feature.
  - apply run_get_feature_242.
Qed.

(** ** The condition of the store and what [execute] does *)

Lemma find_missing_None (cols l : list string) :
  find (fun c => bool_decide (fold_case c ∉ cols)) l = None <->
  forallb (fun c => bool_decide (fold_case c ∈ cols)) l = true.
Proof.
  induction l as [|c l IH]; simpl; [tauto|].
  destruct (decide (fold_case c ∈ cols)) as [Hin|Hout].
  - rewrite (bool_decide_eq_false_2 (fold_case c ∉ cols)) by tauto.
    rewrite (bool_decide_eq_true_2 (fold_case c ∈ cols)) by assumption. exact IH.
  - rewrite (bool_decide_eq_true_2 (fold_case c ∉ cols)) by assumption.
    rewrite (bool_decide_eq_false_2 (fold_case c ∈ cols)) by assumption.
    simpl. split; discriminate.
Qed.

Lemma lookup_table_empty name : lookup_table name ∅ = None.
Proof. unfold lookup_table, schema. now rewrite map_to_list_empty. Qed.

Lemma condition_Readable disk path q t :
  condition_of disk path q = Readable t ->
  exists tabs,
    disk !! path = Some (Database tabs) /\
    lookup_table (sel_table q) tabs = Some t /\
    select_rows q tabs =
      Ok (map (project q) (filter (fun r => matches q r = true) (rows t))).
Proof.
  unfold condition_of, has_columns.
  destruct (disk !! path) as [[| |tabs]|]; try discriminate.
  destruct (lookup_table (sel_table q) tabs) as [t'|] eqn:Ht; [|discriminate].
  destruct (forallb _ _) eqn:Hcols; [|discriminate].
  intros [= ->]. exists tabs. split; [reflexivity|]. split; [assumption|].
  unfold select_rows. rewrite Ht.
  apply find_missing_None in Hcols. now rewrite Hcols.
Qed.

Lemma condition_SchemaMismatch disk path q :
  condition_of disk path q = SchemaMismatch ->
  exists tabs msg,
    disk !! path = Some (Database tabs) /\
    select_rows q tabs = Raise (OperationalError msg).
Proof.
  unfold condition_of, has_columns.
  destruct (disk !! path) as [[| |tabs]|]; try discriminate.
  intros H. exists tabs. unfold select_rows.
  destruct (lookup_table (sel_table q) tabs) as [t|]; [|eauto].
  destruct (find _ _) as [c|] eqn:Hfind; [eauto|].
  apply find_missing_None in Hfind. rewrite Hfind in H. discriminate.
Qed.

Lemma condition_SourceUnavailable disk path q :
  condition_of disk path q = SourceUnavailable ->
  disk !! path = None \/ disk !! path = Some Unopenable \/
  disk !! path = Some NotADatabase.
Proof.
  unfold condition_of.
  destruct (disk !! path) as [[| |tabs]|]; auto.
  destruct (lookup_table (sel_table q) tabs) as [t|]; [|discriminate].
  destruct (has_columns t q); discriminate.
Qed.

(** ** Finding the record *)

Lemma matches_ident q r : matches q r = true <-> ident r = Some (VInt (sel_id q)).
Proof. unfold matches, ident. apply bool_decide_eq_true. Qed.

(** With unique identifiers, the record the request selects is the record
    that carries the identifier. *)
Lemma first_match_unique q t r :
  unique_ids t -> r ∈ rows t -> ident r = Some (VInt (sel_id q)) ->
  first_match q t = Some r.
Proof.
  unfold unique_ids, first_match. generalize (rows t) as l.
  induction l as [|r0 l IH]; intros Hnd Hin Hid.
  - inversion Hin.
  - rewrite fmap_cons in Hnd. apply NoDup_cons in Hnd as [Hfresh Hnd].
    destruct (decide (ident r0 = Some (VInt (sel_id q)))) as [Hid0|Hid0].
    + rewrite filter_cons_True by (now apply matches_ident). simpl.
      apply elem_of_cons in Hin as [->|Hin]; [reflexivity|].
      exfalso. apply Hfresh. rewrite Hid0, <- Hid.
      now apply list_elem_of_fmap_2.
    + rewrite filter_cons_False by (now rewrite matches_ident).
      apply elem_of_cons in Hin as [->|Hin]; [contradiction|]. now apply IH.
Qed.

Lemma first_match_absent q t :
  (forall r, r ∈ rows t -> ident r ≠ Some (VInt (sel_id q))) ->
  first_match q t = None.
Proof.
  unfold first_match. generalize (rows t) as l.
  induction l as [|r0 l IH]; intros Habs; [reflexivity|].
  rewrite filter_cons_False.
  - apply IH. intros r Hr. apply Habs. now right.
  - rewrite matches_ident. apply Habs. now left.
Qed.

(** The run of a lookup script on a store that can be read. *)
Lemma run_Readable l disk t :
  l ∈ sqlite_lookups ->
  condition_of disk (source l) (request l) = Readable t ->
  run (script l) disk =
    (Ok tt,
     World disk []
       (match first_match (request l) t with
        | Some r => render_record l r
        | None => absence l +:+ nl
        end)
       [EvConnect (source l); EvExecute (source l) (request l);
        EvFetch (source l); EvClose (source l)]).
Proof.
  intros Hl Hc. rewrite (run_expected l disk Hl). unfold expected.
  apply condition_Readable in Hc as (tabs & -> & Ht & ->).
  now rewrite Ht.
Qed.

(** The run of a lookup script on a store that lacks the table or a
    requested field. *)
Lemma run_SchemaMismatch l disk :
  l ∈ sqlite_lookups ->
  condition_of disk (source l) (request l) = SchemaMismatch ->
  exists msg,
    run (script l) disk =
      (Raise (OperationalError msg),
       World disk [source l] ""
         [EvConnect (source l); EvExecute (source l) (request l)]).
Proof.
  intros Hl Hc. rewrite (run_expected l disk Hl). unfold expected.
  apply condition_SchemaMismatch in Hc as (tabs & msg & -> & ->).
  now exists msg.
Qed.

(** The run of a lookup script where the store cannot be opened as a
    database. *)
Lemma run_SourceUnavailable l disk :
  l ∈ sqlite_lookups ->
  condition_of disk (source l) (request l) = SourceUnavailable ->
  (run (script l) disk).1 =
    Raise (match disk !! source l with
           | None => OperationalError ("no such table: " +:+ sel_table (request l))
           | Some NotADatabase => DatabaseError "file is not a database"
           | _ => OperationalError "unable to open database file"
           end) /\
  stdout (run (script l) disk).2 = "".
Proof.
  intros Hl Hc. rewrite (run_expected l disk Hl). unfold expected.
  apply condition_SourceUnavailable in Hc as [->|[->| ->]]; simpl; auto.
Qed.

(** ** C1: a found record is rendered field by field *)

(** The rendering of a record written out: for the line-oriented scripts one
    line [label: value] per requested field; for [get-feature-242.py] an
    opening brace, one member ["label": value] per requested field on a line
    of its own, the members separated by commas, and a closing brace. *)
Lemma render_record_entries l r :
  l ∈ sqlite_lookups ->
  render_record l r =
    match shape l with
    | Lines =>
        String.concat ""
          (zip_with (fun label c => label +:+ ": " +:+ py_str (cell r c) +:+ nl)
             (labels l) (sel_columns (request l)))
    | Block =>
        "{" +:+ nl +:+
        String.concat ("," +:+ nl)
          (zip_with (fun label c =>
                       "  " +:+ dq +:+ label +:+ dq +:+ ": " +:+ json_value (cell r c))
             (labels l) (sel_columns (request l))) +:+
        nl +:+ "}" +:+ nl
    end.
Proof.
  unfold sqlite_lookups. rewrite !elem_of_cons, elem_of_nil.
  intros [->|[->|[->|[]]]].
  - reflexivity.
  - reflexivity.
  - unfold render_record, render.
    simpl (shape _). simpl (labels _). simpl (request _).
    cbv [zip_with map sel_columns zip json_dumps json_items json_item
         String.concat fst snd].
    repeat match goal with
           | |- context [json_string ?k] =>
               change (json_string k) with (dq +:+ k +:+ dq)
           end.
    rewrite !append_assoc. reflexivity.
Qed.

(** C1.  When the store can be read and holds a record with the requested
    identifier (identifiers being unique), each [sqlite3] lookup script ends
    normally and its whole output is the rendering of that record: one entry
    per requested field, under one label each, in the order of the request,
    and nothing else.  The output is written out entry by entry: a line
    [label: value] per field for the line-oriented scripts, and for
    [get-feature-242.py] one member ["label": value] per field between
    braces, the members separated by commas. *)
Theorem C1_found_record_rendered l disk t r :
  l ∈ sqlite_lookups ->
  condition_of disk (source l) (request l) = Readable t ->
  unique_ids t ->
  r ∈ rows t ->
  ident r = Some (VInt (sel_id (request l))) ->
  (run (script l) disk).1 = Ok tt /\
  stdout (run (script l) disk).2 = render_record l r /\
  length (labels l) = length (sel_columns (request l)) /\
  stdout (run (script l) disk).2 =
    match shape l with
    | Lines =>
        String.concat ""
          (zip_with (fun label c => label +:+ ": " +:+ py_str (cell r c) +:+ nl)
             (labels l) (sel_columns (request l)))
    | Block =>
        "{" +:+ nl +:+
        String.concat ("," +:+ nl)
          (zip_with (fun label c =>
                       "  " +:+ dq +:+ label +:+ dq +:+ ": " +:+ json_value (cell r c))
             (labels l) (sel_columns (request l))) +:+
        nl +:+ "}" +:+ nl
    end.
Proof.
  intros Hl Hc Hu Hr Hid.
  rewrite (run_Readable l disk t Hl Hc).
  rewrite (first_match_unique _ t r Hu Hr Hid). simpl.
  split; [reflexivity|]. split; [reflexivity|].
  split; [|now apply render_record_entries].
  unfold sqlite_lookups in Hl. rewrite !elem_of_cons, elem_of_nil in Hl.
  destruct Hl as [->|[->|[->|[]]]]; reflexivity.
Qed.

(** [get_feature_30.py] on the sample store, and [get-feature-242.py] on the
    store written with capitals: the text is the one the script prints when
    run on that store. *)
Lemma C1_witness :
  ((run get_feature_30 sample_disk).1 = Ok tt /\
   stdout (run get_feature_30 sample_disk).2 =
     "ID: 30" +:+ nl +:+ "Priority: 1" +:+ nl +:+ "Category: core" +:+ nl +:+
     "Name: Widget" +:+ nl +:+ "Description: desc" +:+ nl +:+
     "Steps: step1;step2" +:+ nl /\
   length (labels lookup_30) = length (sel_columns (request lookup_30))) /\
  ((run get_feature_242 catalog_disk).1 = Ok tt /\
   stdout (run get_feature_242 catalog_disk).2 =
     "{" +:+ nl +:+
     "  " +:+ dq +:+ "id" +:+ dq +:+ ": 242," +:+ nl +:+
     "  " +:+ dq +:+ "category" +:+ dq +:+ ": " +:+ dq +:+ "ui" +:+ dq +:+ "," +:+ nl +:+
     "  " +:+ dq +:+ "name" +:+ dq +:+ ": " +:+
       dq +:+ "Say \" +:+ dq +:+ "hi\" +:+ dq +:+ dq +:+ "," +:+ nl +:+
     "  " +:+ dq +:+ "description" +:+ dq +:+ ": " +:+
       dq +:+ "a\\b\tc\nd\u00e9\u007f" +:+ dq +:+ "," +:+ nl +:+
     "  " +:+ dq +:+ "steps" +:+ dq +:+ ": null," +:+ nl +:+
     "  " +:+ dq +:+ "passes" +:+ dq +:+ ": 0," +:+ nl +:+
     "  " +:+ dq +:+ "in_progress" +:+ dq +:+ ": 1" +:+ nl +:+
     "}" +:+ nl).
Proof.
  split.
  - destruct (C1_found_record_rendered lookup_30 sample_disk features_table widget)
      as (Hok & Hout & Hlen & _).
    + unfold sqlite_lookups. apply elem_of_cons. now left.
    + vm_compute. reflexivity.
    + unfold unique_ids. simpl. apply NoDup_singleton.
    + simpl. apply elem_of_cons. now left.
    + vm_compute. reflexivity.
    + split; [exact Hok|]. split; [|exact Hlen].
      etransitivity; [exact Hout|]. vm_compute. reflexivity.
  - destruct (C1_found_record_rendered lookup_242 catalog_disk
                (canon_table catalog_table) (canon_row gizmo))
      as (Hok & _ & _ & Hfmt).
    + unfold sqlite_lookups. rewrite !elem_of_cons. auto.
    + vm_compute. reflexivity.
    + unfold unique_ids. simpl. apply NoDup_singleton.
    + simpl. apply elem_of_cons. now left.
    + vm_compute. reflexivity.
    + split; [exact Hok|].
      etransitivity; [exact Hfmt|]. vm_compute. reflexivity.
Defined.

(** ** C2: absence is a normal outcome *)

(** C2.  When the store can be read and no record carries the requested
    identifier, each [sqlite3] lookup script raises nothing: it prints its
    absence message, closes the store and ends with status 0. *)
Theorem C2_absence_is_not_a_failure l disk t :
  l ∈ sqlite_lookups ->
  condition_of disk (source l) (request l) = Readable t ->
  (forall r, r ∈ rows t -> ident r ≠ Some (VInt (sel_id (request l)))) ->
  (run (script l) disk).1 = Ok tt /\
  stdout (run (script l) disk).2 = absence l +:+ nl /\
  handles (run (script l) disk).2 = [] /\
  exit_code (run (script l) disk).1 = 0.
Proof.
  intros Hl Hc Habs.
  rewrite (run_Readable l disk t Hl Hc).
  rewrite (first_match_absent _ t Habs). simpl. auto.
Qed.

Lemma C2_witness :
  (run get_feature_242 sample_disk).1 = Ok tt /\
  stdout (run get_feature_242 sample_disk).2 = "Feature not found" +:+ nl /\
  handles (run get_feature_242 sample_disk).2 = [] /\
  exit_code (run get_feature_242 sample_disk).1 = 0.
Proof.
  apply (C2_absence_is_not_a_failure lookup_242 sample_disk features_table).
  - unfold sqlite_lookups. rewrite !elem_of_cons. auto.
  - vm_compute. reflexivity.
  - intros r Hr. apply list_elem_of_singleton in Hr as ->.
    vm_compute. discriminate.
Defined.

(** ** C3: the absence message and the identifier *)

(** The absence messages of [get_feature_30.py] and [query_feature.py] name
    the identifier; the one of [get-feature-242.py] does not.  None holds a
    line feed, so each is printed as a single line. *)
Lemma absence_messages :
  names_identifier lookup_30 = true /\
  names_identifier lookup_query = true /\
  names_identifier lookup_242 = false /\
  Forall (fun l => contains nl (absence l) = false) sqlite_lookups.
Proof.
  repeat split; try (vm_compute; reflexivity).
  repeat constructor.
Qed.

(** C3.  On a readable store that has no record 242, [get-feature-242.py]
    prints the single line [Feature not found]: the identifier it asked for
    occurs nowhere in its output. *)
Theorem C3_get_feature_242_absence_omits_identifier :
  condition_of sample_disk (source lookup_242) (request lookup_242) =
    Readable features_table /\
  first_match (request lookup_242) features_table = None /\
  stdout (run get_feature_242 sample_disk).2 = "Feature not found" +:+ nl /\
  contains "242" (stdout (run get_feature_242 sample_disk).2) = false.
Proof. repeat split; vm_compute; reflexivity. Qed.

(** ** C4: running twice *)

(** C4.  Each [sqlite3] lookup script, run a second time on the disk as its
    first run left it, ends the same way and writes the same text to
    standard output. *)
Theorem C4_second_run_identical :
  Forall (fun l => forall disk,
    (rerun l disk).1 = (run (script l) disk).1 /\
    stdout (rerun l disk).2 = stdout (run (script l) disk).2) sqlite_lookups.
Proof.
  apply Forall_forall. intros l Hl disk. unfold rerun.
  rewrite !(run_expected l _ Hl). unfold expected.
  destruct (disk !! source l) as [[| |tabs]|] eqn:E; simpl.
  - rewrite E. auto.
  - rewrite E. auto.
  - destruct (select_rows (request l) tabs) eqn:Es; simpl; rewrite E, Es; auto.
  - rewrite lookup_insert_eq. unfold select_rows. rewrite lookup_table_empty. auto.
Qed.

(** ** C5: a field that is not in the schema *)

(** C5, as stated, fails: [query_feature.py] on a table without [steps] has
    connected to the store and sent it the statement by the time the failure
    shows; the failure is [execute]'s. *)
Lemma C5_counterexample :
  ~ (forall disk,
       condition_of disk query_feature_path (request lookup_query) = SchemaMismatch ->
       trace (run query_feature disk).2 = []).
Proof.
  intros H. specialize (H narrow_disk).
  assert (Hc : condition_of narrow_disk query_feature_path (request lookup_query)
               = SchemaMismatch) by (vm_compute; reflexivity).
  apply H in Hc. vm_compute in Hc. discriminate.
Qed.

(** C5, amended.  When the store lacks the table or a requested field, each
    [sqlite3] lookup script ends with an uncaught [OperationalError] raised
    by [execute]: the store has been opened and the statement sent, no row
    is fetched, nothing is printed and the store is left as it was. *)
Theorem C5_unknown_field_fails_in_execute l disk :
  l ∈ sqlite_lookups ->
  condition_of disk (source l) (request l) = SchemaMismatch ->
  exists msg,
    run (script l) disk =
      (Raise (OperationalError msg),
       World disk [source l] ""
         [EvConnect (source l); EvExecute (source l) (request l)]).
Proof. apply run_SchemaMismatch. Qed.

Lemma C5_witness :
  exists msg,
    run query_feature narrow_disk =
      (Raise (OperationalError msg),
       World narrow_disk [query_feature_path] ""
         [EvConnect query_feature_path;
          EvExecute query_feature_path (request lookup_query)]).
Proof.
  apply (C5_unknown_field_fails_in_execute lookup_query narrow_disk).
  - unfold sqlite_lookups. rewrite !elem_of_cons. auto.
  - vm_compute. reflexivity.
Defined.

(** ** C6: a store that cannot be opened *)

(** C6, as stated, fails: with no file at the location, [get_feature_30.py]
    ends with an exception that nothing catches. *)
Lemma C6_counterexample :
  ~ (forall disk,
       condition_of disk (source lookup_30) (request lookup_30) = SourceUnavailable ->
       forall e, (run get_feature_30 disk).1 ≠ Raise e).
Proof.
  intros H.
  assert (Hc : condition_of ∅ (source lookup_30) (request lookup_30)
               = SourceUnavailable) by (vm_compute; reflexivity).
  apply (H ∅ Hc (OperationalError "no such table: features")).
  vm_compute. reflexivity.
Qed.

(** C6, amended.  When the store cannot be opened as a database, each
    [sqlite3] lookup script ends with an uncaught [sqlite3] exception, has
    printed nothing and exits with status 1.  [connect] raises when the
    location cannot be opened; with no file there it creates an empty
    database and [execute] raises for the missing table; [execute] raises
    when the file is not a database. *)
Theorem C6_unavailable_source_raises l disk :
  l ∈ sqlite_lookups ->
  condition_of disk (source l) (request l) = SourceUnavailable ->
  (run (script l) disk).1 =
    Raise (match disk !! source l with
           | None => OperationalError ("no such table: " +:+ sel_table (request l))
           | Some NotADatabase => DatabaseError "file is not a database"
           | _ => OperationalError "unable to open database file"
           end) /\
  stdout (run (script l) disk).2 = "" /\
  exit_code (run (script l) disk).1 = 1.
Proof.
  intros Hl Hc. destruct (run_SourceUnavailable l disk Hl Hc) as [Hr Ho].
  rewrite Hr. auto.
Qed.

Lemma C6_witness :
  (run get_feature_30 ∅).1 = Raise (OperationalError "no such table: features") /\
  stdout (run get_feature_30 ∅).2 = "" /\
  exit_code (run get_feature_30 ∅).1 = 1.
Proof.
  assert (Hl : lookup_30 ∈ sqlite_lookups)
    by (unfold sqlite_lookups; rewrite !elem_of_cons; auto).
  assert (Hc : condition_of ∅ (source lookup_30) (request lookup_30)
               = SourceUnavailable) by (vm_compute; reflexivity).
  exact (C6_unavailable_source_raises lookup_30 ∅ Hl Hc).
Defined.

(** ** C7: the store is only read *)

(** Whatever the run, a lookup script leaves every other location alone, and
    the only change it can make at its own is to create an empty database
    where there was no file. *)
Lemma run_frame l disk p :
  l ∈ sqlite_lookups -> p ≠ source l ->
  fs (run (script l) disk).2 !! p = disk !! p.
Proof.
  intros Hl Hp. rewrite (run_expected l disk Hl). unfold expected.
  destruct (disk !! source l) as [[| |tabs]|]; simpl; try reflexivity.
  - destruct (select_rows _ _); reflexivity.
  - now rewrite lookup_insert_ne.
Qed.




(** ** C8: releasing the store handle *)

(** C8.  [get-feature-242.py] run where there is no [features.db], and
    [query_feature.py] run on a table without [steps], both end by an
    exception of [execute] with the connection they opened still open: the
    calls made stop at [execute], [conn.close()] is never reached. *)
Theorem C8_error_path_leaves_connection_open :
  run get_feature_242 ∅ =
    (Raise (OperationalError "no such table: features"),
     World {[ "features.db" := Database ∅ ]} ["features.db"] ""
       [EvConnect "features.db";
        EvExecute "features.db" (request lookup_242)]) /\
  run query_feature narrow_disk =
    (Raise (OperationalError "no such column: steps"),
     World narrow_disk [query_feature_path] ""
       [EvConnect query_feature_path;
        EvExecute query_feature_path (request lookup_query)]).
Proof. split; vm_compute; reflexivity. Qed.

(** The same on every failing run of a [sqlite3] lookup script once the
    store has been opened: the handle stays. *)
Lemma failed_execute_leaves_handle l disk e :
  l ∈ sqlite_lookups ->
  (run (script l) disk).1 = Raise e ->
  disk !! source l ≠ Some Unopenable ->
  handles (run (script l) disk).2 = [source l].
Proof.
  intros Hl. rewrite (run_expected l disk Hl). unfold expected.
  destruct (disk !! source l) as [[| |tabs]|]; simpl; try congruence.
  destruct (select_rows _ _); simpl; congruence.
Qed.

Section get_feature_74_runs.

Context {Feature : Type}.
Variable environ : gmap string string.
Variable resolve : string -> string.
Variable create_database : string -> result unit.
Variable session_maker : result unit.
Variable query_first : Z -> result (option Feature).
Variable feature_bool : Feature -> bool.
Variable to_json : Feature -> result string.
Variable session_close : result unit.

Let dir : string := resolve (default "." (environ !! "PROJECT_DIR")).
Let script74 : py unit :=
  get_feature_74 environ resolve create_database session_maker query_first
    feature_bool to_json session_close.

Ltac run_74 :=
  subst script74;
  cbv [run get_feature_74 boot bind try_finally lift open_session
       close_session log print fs handles stdout trace];
  fold dir.

(** [get-feature-74.py] releases its session on every path: whatever the
    calls do, when [session.close()] itself returns no handle is left. *)
Lemma get_feature_74_releases disk :
  session_close = Ok tt -> handles (run script74 disk).2 = [].
Proof.
  intros Hc. run_74. rewrite Hc.
  destruct (create_database dir) as [[]|?]; simpl; [|reflexivity].
  destruct session_maker as [[]|?]; simpl; [|reflexivity].
  destruct (query_first 74) as [[f|]|?]; simpl;
    [destruct (feature_bool f); simpl; [destruct (to_json f); simpl|] | | ];
    rewrite ?(bool_decide_eq_true_2 (dir = dir)) by reflexivity;
    reflexivity.
Qed.

(** Once the session is open, the last call the script makes is
    [session.close()], also when the query or the rendering raised. *)
Lemma get_feature_74_closes_last disk :
  create_database dir = Ok tt -> session_maker = Ok tt ->
  trace (run script74 disk).2 = [EvSession dir; EvSessionClose dir].
Proof.
  intros Hd Hs. run_74. rewrite Hd, Hs. simpl.
  destruct (query_first 74) as [[f|]|?]; simpl.
  - destruct (feature_bool f); simpl.
    + destruct (to_json f); simpl; destruct session_close as [[]|?]; reflexivity.
    + destruct session_close as [[]|?]; reflexivity.
  - destruct session_close as [[]|?]; reflexivity.
  - destruct session_close as [[]|?]; reflexivity.
Qed.

(** A failure to set up the store, to open the session or to run the query
    reaches the top level, with or without the [finally] clause. *)
Lemma get_feature_74_store_failure disk :
  (exists e, create_database dir = Raise e) \/
  (exists e, session_maker = Raise e) \/
  (exists e, query_first 74 = Raise e) ->
  exit_code (run script74 disk).1 = 1.
Proof.
  intros H. run_74.
  destruct (create_database dir) as [[]|?]; simpl; [|reflexivity].
  destruct session_maker as [[]|?]; simpl; [|reflexivity].
  destruct (query_first 74) as [o|?]; simpl.
  - destruct H as [[e H]|[[e H]|[e H]]]; discriminate.
  - destruct session_close as [[]|?]; reflexivity.
Qed.

(** When every call returns, the script prints the feature or its absence
    message and ends with status 0. *)
Lemma get_feature_74_success disk :
  create_database dir = Ok tt -> session_maker = Ok tt ->
  session_close = Ok tt ->
  (query_first 74 = Ok None \/
   exists f, query_first 74 = Ok (Some f) /\
     (feature_bool f = false \/ exists text, to_json f = Ok text)) ->
  exit_code (run script74 disk).1 = 0.
Proof.
  intros Hd Hs Hc H. run_74. rewrite Hd, Hs, Hc. simpl.
  destruct H as [-> | (f & -> & [Hb | [text Ht]])]; simpl.
  - reflexivity.
  - rewrite Hb. reflexivity.
  - rewrite Ht. destruct (feature_bool f); reflexivity.
Qed.

(** The absence message of [get-feature-74.py] names its identifier. *)
Lemma get_feature_74_absence disk :
  create_database dir = Ok tt -> session_maker = Ok tt ->
  query_first 74 = Ok None ->
  stdout (run script74 disk).2 = "Feature #74 not found" +:+ nl.
Proof.
  intros Hd Hs Hq. run_74. rewrite Hd, Hs, Hq. simpl.
  destruct session_close as [[]|?]; reflexivity.
Qed.

End get_feature_74_runs.

(** ** C9: exit status *)

(** C9.  A [sqlite3] lookup script exits with status 0 exactly when the
    store can be read (the record found, or its absence reported) and with
    status 1 when the store cannot be opened or lacks what the request
    names.  [get-feature-74.py] exits with status 1 when setting up the
    store, opening the session or running the query raises, and with status
    0 when every call returns. *)
Theorem C9_exit_codes :
  (forall l disk, l ∈ sqlite_lookups ->
     exit_code (run (script l) disk).1 =
       match condition_of disk (source l) (request l) with
       | Readable _ => 0
       | SourceUnavailable | SchemaMismatch => 1
       end) /\
  (forall (Feature : Type) environ resolve create_database session_maker
          (query_first : Z -> result (option Feature)) feature_bool to_json
          session_close disk,
     let dir := resolve (default "." (environ !! "PROJECT_DIR")) in
     let r := (run (get_feature_74 environ resolve create_database
                      session_maker query_first feature_bool to_json
                      session_close) disk).1 in
     ((exists e, create_database dir = Raise e) \/
      (exists e, session_maker = Raise e) \/
      (exists e, query_first 74 = Raise e) ->
      exit_code r = 1) /\
     (create_database dir = Ok tt -> session_maker = Ok tt ->
      session_close = Ok tt ->
      (query_first 74 = Ok None \/
       exists f, query_first 74 = Ok (Some f) /\
         (feature_bool f = false \/ exists text, to_json f = Ok text)) ->
      exit_code r = 0)).
Proof.
  split.
  - intros l disk Hl.
    destruct (condition_of disk (source l) (request l)) as [| |t] eqn:Hc.
    + destruct (run_SourceUnavailable l disk Hl Hc) as [-> _]. reflexivity.
    + destruct (run_SchemaMismatch l disk Hl Hc) as [msg ->]. reflexivity.
    + now rewrite (run_Readable l disk t Hl Hc).
  - intros. split.
    + apply get_feature_74_store_failure.
    + apply get_feature_74_success.
Qed.

Lemma C9_witness :
  exit_code (run get_feature_30 sample_disk).1 = 0 /\
  exit_code (run get_feature_242 catalog_disk).1 = 0 /\
  exit_code (run get_feature_30 ∅).1 = 1 /\
  exit_code (run (get_feature_74 ∅ id api_create_fails (Ok tt) api_absent
                    (fun _ => true) api_to_json (Ok tt)) ∅).1 = 1 /\
  exit_code (run (get_feature_74 ∅ id api_create_ok (Ok tt) api_absent
                    (fun _ => true) api_to_json (Ok tt)) ∅).1 = 0.
Proof.
  destruct C9_exit_codes as [Hsql H74].
  assert (Hl : lookup_30 ∈ sqlite_lookups)
    by (unfold sqlite_lookups; rewrite !elem_of_cons; auto).
  assert (Hl' : lookup_242 ∈ sqlite_lookups)
    by (unfold sqlite_lookups; rewrite !elem_of_cons; auto).
  split; [exact (Hsql lookup_30 sample_disk Hl)|].
  split; [exact (Hsql lookup_242 catalog_disk Hl')|].
  split; [exact (Hsql lookup_30 ∅ Hl)|].
  split.
  - apply (H74 unit ∅ id api_create_fails (Ok tt) api_absent (fun _ => true)
             api_to_json (Ok tt) ∅).
    left. eexists. reflexivity.
  - apply (H74 unit ∅ id api_create_ok (Ok tt) api_absent (fun _ => true)
             api_to_json (Ok tt) ∅); try reflexivity.
    left. reflexivity.
Defined.

(** ** C10: [fix-imports.py] *)

Section fix_imports_facts.
Import FixImports.

(** Reading the lines of a file and writing them back gives the file. *)
Lemma writelines_readlines content : writelines (readlines content) = content.
Proof.
  induction content as [|c s IH]; [reflexivity|]. simpl.
  destruct (Ascii.eqb c (ascii_of_nat 10)).
  - simpl. now rewrite IH.
  - destruct (readlines s) as [|l ls]; simpl in *.
    + now rewrite <- IH.
    + now rewrite <- IH.
Qed.

Lemma py_insert_after (before after : list string) line new :
  py_insert (length before + 1) new (before ++ line :: after)
  = (before ++ line :: new :: after)%list.
Proof.
  unfold py_insert.
  replace (before ++ line :: after)%list
    with ((before ++ [line]) ++ after)%list
    by (now rewrite <- app_assoc).
  rewrite take_app_length', drop_app_length'
    by (rewrite length_app; simpl; lia).
  now rewrite <- app_assoc.
Qed.

(** The loop, started on the lines [todo] that follow the lines [seen]
    already found without the pattern. *)
Lemma scan_inserted_once pat new (todo seen : list string) :
  Forall (fun line => contains pat line = false) seen ->
  inserted_once pat new (seen ++ todo)
    (scan pat new (seen ++ todo) (enumerate (length seen) todo)).
Proof.
  revert seen. induction todo as [|line todo IH]; intros seen Hseen; simpl.
  - rewrite app_nil_r. now constructor.
  - destruct (contains pat line) eqn:Hline.
    + rewrite py_insert_after. now constructor.
    + replace (seen ++ line :: todo)%list
        with ((seen ++ [line]) ++ todo)%list
        by (now rewrite <- app_assoc).
      replace (S (length seen)) with (length (seen ++ [line])%list)
        by (rewrite length_app; simpl; lia).
      apply IH. apply Forall_app. split; [assumption|]. now constructor.
Qed.

Lemma insert_after_inserted_once pat new lines :
  inserted_once pat new lines (insert_after pat new lines).
Proof. apply (scan_inserted_once pat new lines []). constructor. Qed.

(** An insertion keeps every line, in order. *)
Lemma inserted_once_sublist pat new lines lines' :
  inserted_once pat new lines lines' -> lines `sublist_of` lines'.
Proof.
  intros [l _ | before line after _ _]; [reflexivity|].
  apply sublist_app; [reflexivity|].
  apply sublist_skip. now apply sublist_cons.
Qed.

Lemma inserted_once_length pat new lines lines' :
  inserted_once pat new lines lines' ->
  (length lines <= length lines' <= length lines + 1)%nat.
Proof.
  intros [l _ | before line after _ _]; [lia|].
  rewrite !length_app. simpl. lia.
Qed.

End fix_imports_facts.

(** C10.  On a file that exists, [fix-imports.py] ends normally, prints
    [Imports added successfully] whether or not a pattern was found, and
    rewrites the file with the lines it read in which the [Box] line is
    added at most once, right after the first line holding the [Progress,]
    pattern, and then the [Dropzone] import at most once, right after the
    first line holding the [@mantine/dates] pattern; nothing is added for a
    pattern that no line holds, and every line read is written back
    unchanged and in the same order. *)
Theorem C10_fix_imports_inserts_once st content :
  FixImports.files st !! FixImports.target = Some content ->
  let lines := FixImports.readlines content in
  let out := FixImports.patch lines in
  FixImports.fix_imports st =
    (Ok tt,
     FixImports.State
       (<[FixImports.target := FixImports.writelines out]> (FixImports.files st))
       (FixImports.printed st +:+ "Imports added successfully" +:+ nl)) /\
  FixImports.writelines lines = content /\
  (exists mid,
     FixImports.inserted_once FixImports.progress_pat FixImports.box_line lines mid /\
     FixImports.inserted_once FixImports.dates_pat FixImports.dropzone_line mid out) /\
  lines `sublist_of` out /\
  (length out <= length lines + 2)%nat.
Proof.
  intros Hfile lines out.
  pose proof (insert_after_inserted_once FixImports.progress_pat
                FixImports.box_line lines) as H1.
  pose proof (insert_after_inserted_once FixImports.dates_pat
                FixImports.dropzone_line
                (FixImports.insert_after FixImports.progress_pat
                   FixImports.box_line lines)) as H2.
  fold (FixImports.patch lines) in H2. fold out in H2.
  split; [|split; [|split; [|split]]].
  - unfold FixImports.fix_imports. rewrite Hfile. reflexivity.
  - apply writelines_readlines.
  - eauto.
  - etransitivity; eapply inserted_once_sublist; eassumption.
  - apply inserted_once_length in H1, H2. lia.
Qed.

Lemma C10_witness :
  let lines := FixImports.readlines FixImports.sample_page in
  let out := FixImports.patch lines in
  FixImports.fix_imports FixImports.sample_state =
    (Ok tt,
     FixImports.State
       (<[FixImports.target := FixImports.writelines out]>
          (FixImports.files FixImports.sample_state))
       (FixImports.printed FixImports.sample_state +:+
        "Imports added successfully" +:+ nl)) /\
  FixImports.writelines lines = FixImports.sample_page /\
  (exists mid,
     FixImports.inserted_once FixImports.progress_pat FixImports.box_line lines mid /\
     FixImports.inserted_once FixImports.dates_pat FixImports.dropzone_line mid out) /\
  lines `sublist_of` out /\
  (length out <= length lines + 2)%nat.
Proof.
  apply (C10_fix_imports_inserts_once FixImports.sample_state FixImports.sample_page).
  vm_compute. reflexivity.
Defined.

(** * Further properties of the scripts *)

(** ** [fix-imports.py]: lines and text *)

Section fix_imports_more.
Import FixImports.

Lemma writelines_app (l1 l2 : list string) :
  writelines (l1 ++ l2) = writelines l1 +:+ writelines l2.
Proof.
  induction l1 as [|l l1 IH]; [reflexivity|]. simpl.
  now rewrite IH, append_assoc.
Qed.

Lemma prefix_spec (p s : string) :
  String.prefix p s = true <-> exists b, s = p +:+ b.
Proof.
  revert s. induction p as [|c p IH]; intros s.
  - split; [exists s; reflexivity | destruct s; reflexivity].
  - destruct s as [|d s]; simpl.
    + split; [discriminate | intros [b Hb]; discriminate].
    + destruct (ascii_dec c d) as [->|Hcd].
      * rewrite IH. split; intros [b Hb]; exists b.
        -- now rewrite Hb.
        -- now injection Hb.
      * split; [discriminate | intros [b Hb]; injection Hb; congruence].
Qed.

Lemma contains_spec (p s : string) :
  contains p s = true <-> exists a b, s = a +:+ p +:+ b.
Proof.
  induction s as [|c s IH].
  - cbn [contains]. rewrite orb_false_r, prefix_spec. split.
    + intros [b Hb]. exists "", b. exact Hb.
    + intros (a & b & Hab). destruct a; [now exists b|discriminate].
  - cbn [contains]. rewrite orb_true_iff, prefix_spec, IH. split.
    + intros [[b Hb]|(a & b & Hab)].
      * exists "", b. exact Hb.
      * exists (String c a), b. now rewrite Hab.
    + intros (a & b & Hab). destruct a as [|d a].
      * left. now exists b.
      * right. exists a, b. now injection Hab.
Qed.

Lemma contains_cons p c s : contains p s = true -> contains p (String c s) = true.
Proof. intros H. cbn [contains]. rewrite H. apply orb_true_r. Qed.

(** Every line read is a piece of the text. *)
Lemma line_in_content l c :
  In l (readlines c) -> exists a b, c = a +:+ l +:+ b.
Proof.
  intros Hin. apply in_split in Hin as (l1 & l2 & Hs).
  exists (writelines l1), (writelines l2).
  rewrite <- (writelines_readlines c), Hs, writelines_app. reflexivity.
Qed.

Lemma contains_line_content p l c :
  In l (readlines c) -> contains p l = true -> contains p c = true.
Proof.
  intros Hin Hp. apply line_in_content in Hin as (a & b & ->).
  apply contains_spec in Hp as (a' & b' & ->). apply contains_spec.
  exists (a +:+ a'), (b' +:+ b). now rewrite !append_assoc.
Qed.

(** A text that starts with a pattern of one line has it in its first
    line. *)
Lemma pattern_in_first_line p b :
  p <> "" -> one_line p = true ->
  exists l ls b', readlines (p +:+ b) = l :: ls /\ l = p +:+ b'.
Proof.
  induction p as [|c p IH]; intros Hne Hone; [congruence|].
  cbn [one_line] in Hone. apply andb_true_iff in Hone as [Hc Hone].
  apply negb_true_iff in Hc.
  change (String c p +:+ b) with (String c (p +:+ b)).
  cbn [readlines]. rewrite Hc.
  destruct p as [|d p].
  - change ("" +:+ b) with b.
    destruct (readlines b) as [|l0 ls].
    + exists (String c ""), [], "". split; reflexivity.
    + exists (String c l0), ls, l0. split; reflexivity.
  - destruct (IH ltac:(discriminate) Hone) as (l & ls & b' & -> & ->).
    exists (String c (String d p +:+ b')), ls, b'. split; reflexivity.
Qed.

Lemma contains_content_line p c :
  p <> "" -> one_line p = true -> contains p c = true ->
  exists l, In l (readlines c) /\ contains p l = true.
Proof.
  intros Hne Hone Hc. apply contains_spec in Hc as (a & b & ->).
  induction a as [|d a IH].
  - change ("" +:+ p +:+ b) with (p +:+ b).
    destruct (pattern_in_first_line p b Hne Hone) as (l & ls & b' & -> & ->).
    exists (p +:+ b'). split; [now left|].
    apply contains_spec. now exists "", b'.
  - destruct IH as (l & Hin & Hl).
    change (String d a +:+ p +:+ b) with (String d (a +:+ p +:+ b)).
    cbn [readlines]. destruct (Ascii.eqb d (ascii_of_nat 10)).
    + exists l. split; [now right|assumption].
    + destruct (readlines (a +:+ p +:+ b)) as [|l0 ls]; [destruct Hin|].
      destruct Hin as [->|Hin].
      * exists (String d l). split; [now left|now apply contains_cons].
      * exists l. split; [now right|assumption].
Qed.

(** Some line holds a pattern of one line exactly when the text holds it. *)
Lemma existsb_contains_readlines p c :
  p <> "" -> one_line p = true ->
  existsb (contains p) (readlines c) = contains p c.
Proof.
  intros Hne Hone. destruct (contains p c) eqn:Hc.
  - apply existsb_exists. now apply contains_content_line.
  - destruct (existsb _ _) eqn:He; [|reflexivity].
    apply existsb_exists in He as (l & Hin & Hl).
    rewrite (contains_line_content p l c Hin Hl) in Hc. discriminate.
Qed.

Lemma existsb_no_match pat (lines : list string) :
  Forall (fun line => contains pat line = false) lines ->
  existsb (contains pat) lines = false.
Proof.
  induction 1 as [|l ls Hl _ IH]; [reflexivity|]. simpl. now rewrite Hl, IH.
Qed.

(** What one loop does, by whether some line holds the pattern. *)
Lemma insert_after_cases pat new lines :
  (existsb (contains pat) lines = false /\ insert_after pat new lines = lines) \/
  (exists before x after,
     existsb (contains pat) lines = true /\
     lines = (before ++ x :: after)%list /\
     Forall (fun line => contains pat line = false) before /\
     contains pat x = true /\
     insert_after pat new lines = (before ++ x :: new :: after)%list).
Proof.
  pose proof (insert_after_inserted_once pat new lines) as H.
  remember (insert_after pat new lines) as out eqn:Eo.
  destruct H as [l Hno | before x after Hno Hyes].
  - left. split; [now apply existsb_no_match|reflexivity].
  - right. exists before, x, after. repeat split; try assumption.
    rewrite existsb_app. simpl. rewrite Hyes. now rewrite orb_true_r.
Qed.

Lemma insert_after_match pat new (before after : list string) x :
  Forall (fun line => contains pat line = false) before ->
  contains pat x = true ->
  insert_after pat new (before ++ x :: after) = (before ++ x :: new :: after)%list.
Proof.
  intros Hno Hyes.
  assert (H : forall seen : list string,
            scan pat new (seen ++ before ++ x :: after)
              (enumerate (length seen) (before ++ x :: after))
            = (seen ++ before ++ x :: new :: after)%list).
  { clear -Hno Hyes. induction Hno as [|l ls Hl _ IH]; intros seen.
    - simpl. rewrite Hyes. apply py_insert_after.
    - simpl. rewrite Hl.
      replace (seen ++ l :: ls ++ x :: after)%list
        with ((seen ++ [l]) ++ ls ++ x :: after)%list
        by (now rewrite <- app_assoc).
      replace (S (length seen)) with (length (seen ++ [l])%list)
        by (rewrite length_app; simpl; lia).
      rewrite IH. now rewrite <- app_assoc. }
  exact (H []).
Qed.

Lemma insert_after_no_match pat new (lines : list string) :
  Forall (fun line => contains pat line = false) lines ->
  insert_after pat new lines = lines.
Proof.
  intros Hno. destruct (insert_after_cases pat new lines)
    as [[_ ->] | (b & x & a & He & _)]; [reflexivity|].
  rewrite (existsb_no_match pat lines Hno) in He. discriminate.
Qed.

Lemma insert_after_length pat new lines :
  length (insert_after pat new lines) =
  (length lines + if existsb (contains pat) lines then 1 else 0)%nat.
Proof.
  destruct (insert_after_cases pat new lines)
    as [[-> ->] | (b & x & a & -> & -> & _ & _ & ->)].
  - lia.
  - rewrite !length_app. simpl. lia.
Qed.

(** A line put in for one pattern is an anchor of another pattern only if
    it holds that pattern itself. *)
Lemma insert_after_existsb p pat new lines :
  contains p new = false ->
  existsb (contains p) (insert_after pat new lines) = existsb (contains p) lines.
Proof.
  intros Hnew. destruct (insert_after_cases pat new lines)
    as [[_ ->] | (b & x & a & _ & -> & _ & _ & ->)]; [reflexivity|].
  rewrite !existsb_app. simpl. now rewrite Hnew.
Qed.

Lemma insert_after_spliced pat new lines :
  spliced (existsb (contains pat) lines) new
    (writelines lines) (writelines (insert_after pat new lines)).
Proof.
  destruct (insert_after_cases pat new lines)
    as [[-> ->] | (b & x & a & -> & -> & _ & _ & ->)]; [reflexivity|].
  exists (writelines (b ++ [x])), (writelines a). split.
  - rewrite <- writelines_app, <- app_assoc. reflexivity.
  - change (new +:+ writelines a) with (writelines (new :: a)).
    rewrite <- writelines_app, <- app_assoc. reflexivity.
Qed.

Lemma insert_after_ends_line pat new lines :
  ends_line new = true ->
  Forall (fun l => ends_line l = true) lines ->
  Forall (fun l => ends_line l = true) (insert_after pat new lines).
Proof.
  intros Hnew Hl. destruct (insert_after_cases pat new lines)
    as [[_ ->] | (b & x & a & _ & -> & _ & _ & ->)]; [assumption|].
  apply Forall_app in Hl as [Hb Hxa]. apply Forall_cons in Hxa as [Hx Ha].
  apply Forall_app. split; [assumption|]. repeat constructor; assumption.
Qed.

End fix_imports_more.
Section fix_imports_text.
Import FixImports.

Lemma length_append (a b : string) :
  String.length (a +:+ b) = (String.length a + String.length b)%nat.
Proof. induction a as [|c a IH]; [reflexivity|]. simpl. now rewrite IH. Qed.

Lemma spliced_length found new s s' :
  spliced found new s s' ->
  String.length s' =
  (String.length s + if found then String.length new else 0)%nat.
Proof.
  destruct found; simpl.
  - intros (a & b & -> & ->). rewrite !length_append. lia.
  - intros ->. lia.
Qed.

Lemma readlines_nil s : readlines s = [] -> s = "".
Proof.
  destruct s as [|c s]; [reflexivity|]. simpl.
  destruct (Ascii.eqb c (ascii_of_nat 10)); [discriminate|].
  destruct (readlines s); discriminate.
Qed.

(** A whole line at the head of a text is its first line. *)
Lemma readlines_line l rest :
  ends_line l = true -> readlines (l +:+ rest) = l :: readlines rest.
Proof.
  induction l as [|c l IH]; [discriminate|]. cbn [ends_line].
  change (String c l +:+ rest) with (String c (l +:+ rest)). cbn [readlines].
  destruct (Ascii.eqb c (ascii_of_nat 10)).
  - destruct l; [reflexivity|discriminate].
  - intros Hl. now rewrite (IH Hl).
Qed.

(** Whole lines written one after the other are read back as they were. *)
Lemma readlines_writelines ls :
  Forall (fun l => ends_line l = true) ls -> readlines (writelines ls) = ls.
Proof.
  induction 1 as [|l ls Hl _ IH]; [reflexivity|]. simpl.
  now rewrite (readlines_line l _ Hl), IH.
Qed.

(** The lines of a text that ends with a line feed are whole. *)
Lemma readlines_terminated c :
  newline_terminated c = true ->
  Forall (fun l => ends_line l = true) (readlines c).
Proof.
  induction c as [|ch s IH]; [constructor|].
  cbn [newline_terminated readlines].
  destruct s as [|d s'].
  - intros Hch. rewrite Hch. constructor; [|constructor].
    simpl. now rewrite Hch.
  - intros Ht. specialize (IH Ht).
    destruct (Ascii.eqb ch (ascii_of_nat 10)) eqn:Hch.
    + constructor; [|assumption]. simpl. now rewrite Hch.
    + destruct (readlines (String d s')) as [|l ls] eqn:Hr.
      * apply readlines_nil in Hr. discriminate.
      * apply Forall_cons in IH as [Hl Hls]. constructor; [|assumption].
        cbn [ends_line]. now rewrite Hch.
Qed.

Lemma terminated_line l rest :
  ends_line l = true -> newline_terminated rest = true ->
  newline_terminated (l +:+ rest) = true.
Proof.
  induction l as [|c l IH]; [discriminate|]. cbn [ends_line].
  change (String c l +:+ rest) with (String c (l +:+ rest)).
  intros Hl Hr. cbn [newline_terminated].
  destruct (Ascii.eqb c (ascii_of_nat 10)) eqn:Hc.
  - destruct l; [|discriminate]. change ("" +:+ rest) with rest.
    destruct rest; [assumption|assumption].
  - destruct (l +:+ rest) eqn:E.
    + destruct l; discriminate.
    + now apply IH.
Qed.

Lemma writelines_terminated ls :
  Forall (fun l => ends_line l = true) ls ->
  newline_terminated (writelines ls) = true.
Proof.
  induction 1 as [|l ls Hl _ IH]; [reflexivity|]. simpl.
  now apply terminated_line.
Qed.

Lemma patch_ends_line lines :
  Forall (fun l => ends_line l = true) lines ->
  Forall (fun l => ends_line l = true) (patch lines).
Proof.
  intros H. unfold patch.
  apply insert_after_ends_line; [reflexivity|].
  apply insert_after_ends_line; [reflexivity|assumption].
Qed.

End fix_imports_text.
Section fix_imports_script.
Import FixImports.

(** The anchors of the two loops, read on the text of the file: the [Box]
    line is no anchor of the second loop. *)
Lemma patch_anchor_flags content :
  existsb (contains progress_pat) (readlines content)
    = contains progress_pat content /\
  existsb (contains dates_pat)
      (insert_after progress_pat box_line (readlines content))
    = contains dates_pat content.
Proof.
  split.
  - now apply existsb_contains_readlines.
  - rewrite insert_after_existsb by reflexivity.
    now apply existsb_contains_readlines.
Qed.

Lemma patch_existsb p lines :
  contains p box_line = false -> contains p dropzone_line = false ->
  existsb (contains p) (patch lines) = existsb (contains p) lines.
Proof.
  intros Hb Hd. unfold patch. now rewrite !insert_after_existsb.
Qed.

Lemma patch_length lines :
  length (patch lines) =
  (length lines
   + (if existsb (contains progress_pat) lines then 1 else 0)
   + (if existsb (contains dates_pat) lines then 1 else 0))%nat.
Proof.
  unfold patch. rewrite !insert_after_length.
  now rewrite insert_after_existsb by reflexivity.
Qed.

(** The text written, from the text read. *)
Lemma patch_text content :
  exists mid,
    spliced (contains progress_pat content) box_line content mid /\
    spliced (contains dates_pat content) dropzone_line mid
      (writelines (patch (readlines content))).
Proof.
  destruct (patch_anchor_flags content) as [Hp Hd].
  exists (writelines (insert_after progress_pat box_line (readlines content))).
  split.
  - rewrite <- Hp. rewrite <- (writelines_readlines content) at 2.
    apply insert_after_spliced.
  - rewrite <- Hd. apply insert_after_spliced.
Qed.

Lemma patch_text_length content :
  String.length (writelines (patch (readlines content))) =
  (String.length content
   + (if contains progress_pat content then String.length box_line else 0)
   + (if contains dates_pat content then String.length dropzone_line else 0))%nat.
Proof.
  destruct (patch_text content) as (mid & H1 & H2).
  apply spliced_length in H1, H2. lia.
Qed.

End fix_imports_script.

(** X1.  The text of the file, as [fix-imports.py] reads and writes it in
    text mode (decoded, its line ends translated), is the same after the run
    as before if and only if it holds neither the [Progress,] pattern nor
    the [@mantine/dates] pattern.  This is about the text: what the
    translation of line ends does to the bytes of a file is not part of
    it. *)
Theorem X1_fix_imports_changes_iff_anchor st content :
  FixImports.files st !! FixImports.target = Some content ->
  exists content',
    FixImports.files (FixImports.fix_imports st).2 !! FixImports.target
      = Some content' /\
    (content' = content <->
     contains FixImports.progress_pat content = false /\
     contains FixImports.dates_pat content = false).
Proof.
  intros Hfile.
  exists (FixImports.writelines
            (FixImports.patch (FixImports.readlines content))).
  split.
  { unfold FixImports.fix_imports. rewrite Hfile. simpl.
    apply lookup_insert_eq. }
  pose proof (patch_text_length content) as Hlen. split.
  - intros Hw. rewrite Hw in Hlen.
    destruct (contains FixImports.progress_pat content);
      destruct (contains FixImports.dates_pat content);
      simpl in Hlen; first [lia | auto].
  - intros [Hp Hd].
    destruct (patch_text content) as (mid & H1 & H2).
    rewrite Hp in H1. rewrite Hd in H2. simpl in H1, H2.
    now rewrite H2, H1.
Qed.

Lemma X1_witness :
  exists content',
    FixImports.files (FixImports.fix_imports FixImports.sample_state).2
      !! FixImports.target = Some content' /\
    (content' = FixImports.sample_page <->
     contains FixImports.progress_pat FixImports.sample_page = false /\
     contains FixImports.dates_pat FixImports.sample_page = false).
Proof.
  apply (X1_fix_imports_changes_iff_anchor FixImports.sample_state
           FixImports.sample_page).
  vm_compute. reflexivity.
Defined.

(** X2.  The text [fix-imports.py] writes is the text it read with the
    [Box] line put in at one place when the text holds the [Progress,]
    pattern, and the [Dropzone] import put in at one place when the text
    holds the [@mantine/dates] pattern: every character read is written
    back, and the file grows by exactly the lines put in. *)
Theorem X2_fix_imports_splices st content :
  FixImports.files st !! FixImports.target = Some content ->
  exists mid content',
    FixImports.files (FixImports.fix_imports st).2 !! FixImports.target
      = Some content' /\
    spliced (contains FixImports.progress_pat content) FixImports.box_line
      content mid /\
    spliced (contains FixImports.dates_pat content) FixImports.dropzone_line
      mid content' /\
    String.length content' =
      (String.length content
       + (if contains FixImports.progress_pat content
          then String.length FixImports.box_line else 0)
       + (if contains FixImports.dates_pat content
          then String.length FixImports.dropzone_line else 0))%nat.
Proof.
  intros Hfile. destruct (patch_text content) as (mid & H1 & H2).
  exists mid, (FixImports.writelines
                 (FixImports.patch (FixImports.readlines content))).
  split; [|split; [assumption|split; [assumption|apply patch_text_length]]].
  unfold FixImports.fix_imports. rewrite Hfile. simpl.
  apply lookup_insert_eq.
Qed.

Lemma X2_witness :
  exists mid content',
    FixImports.files (FixImports.fix_imports FixImports.sample_state).2
      !! FixImports.target = Some content' /\
    spliced true FixImports.box_line FixImports.sample_page mid /\
    spliced true FixImports.dropzone_line mid content' /\
    String.length content' = (String.length FixImports.sample_page + 7 + 60)%nat.
Proof.
  apply (X2_fix_imports_splices FixImports.sample_state FixImports.sample_page).
  vm_compute. reflexivity.
Defined.
(** X3.  On a file that is empty or ends with a line feed, the file
    [fix-imports.py] writes reads back, line by line, as the lines it
    read with the insertions made: each line put in stands on a line of its
    own, no line read is joined with another, and the file written again
    ends with a line feed. *)
Theorem X3_fix_imports_keeps_lines st content :
  FixImports.files st !! FixImports.target = Some content ->
  newline_terminated content = true ->
  exists content',
    FixImports.files (FixImports.fix_imports st).2 !! FixImports.target
      = Some content' /\
    FixImports.readlines content'
      = FixImports.patch (FixImports.readlines content) /\
    newline_terminated content' = true.
Proof.
  intros Hfile Hnl.
  exists (FixImports.writelines
            (FixImports.patch (FixImports.readlines content))).
  pose proof (patch_ends_line _ (readlines_terminated content Hnl)) as Hl.
  split; [|split].
  - unfold FixImports.fix_imports. rewrite Hfile. simpl.
    apply lookup_insert_eq.
  - now apply readlines_writelines.
  - now apply writelines_terminated.
Qed.

Lemma X3_witness :
  exists content',
    FixImports.files (FixImports.fix_imports FixImports.sample_state).2
      !! FixImports.target = Some content' /\
    FixImports.readlines content'
      = FixImports.patch (FixImports.readlines FixImports.sample_page) /\
    newline_terminated content' = true.
Proof.
  apply (X3_fix_imports_keeps_lines FixImports.sample_state
           FixImports.sample_page).
  - vm_compute. reflexivity.
  - vm_compute. reflexivity.
Defined.

(** The state of the file after some runs, as the lines it holds. *)
Lemma runs_lines st content n :
  FixImports.files st !! FixImports.target = Some content ->
  newline_terminated content = true ->
  exists ls,
    FixImports.files (runs n st) !! FixImports.target
      = Some (FixImports.writelines ls) /\
    Forall (fun l => ends_line l = true) ls /\
    existsb (contains FixImports.progress_pat) ls
      = contains FixImports.progress_pat content /\
    existsb (contains FixImports.dates_pat) ls
      = contains FixImports.dates_pat content /\
    length ls =
      (length (FixImports.readlines content) + n * anchors content)%nat.
Proof.
  intros Hfile Hnl. induction n as [|n (ls & Hf & Hls & Hp & Hd & Hlen)].
  - exists (FixImports.readlines content).
    rewrite writelines_readlines.
    repeat split; [assumption|now apply readlines_terminated|
                   now apply existsb_contains_readlines|
                   now apply existsb_contains_readlines|simpl; lia].
  - exists (FixImports.patch ls).
    unfold runs in *. rewrite Nat.iter_succ.
    set (st' := Nat.iter n _ st) in *.
    unfold FixImports.fix_imports. rewrite Hf. simpl.
    rewrite (readlines_writelines ls Hls).
    repeat split.
    + apply lookup_insert_eq.
    + now apply patch_ends_line.
    + now rewrite patch_existsb by reflexivity.
    + now rewrite patch_existsb by reflexivity.
    + rewrite patch_length, Hp, Hd, Hlen. unfold anchors. lia.
Qed.

(** X4.  [fix-imports.py] is not idempotent: run [n] times on a file that
    is empty or ends with a line feed, it has added one line per run for
    each of the two patterns the text first held, so the file has grown by
    [n] lines for one pattern and [2 * n] lines for both, and stays as it
    was only when it holds neither. *)
Theorem X4_fix_imports_runs_accumulate st content n :
  FixImports.files st !! FixImports.target = Some content ->
  newline_terminated content = true ->
  exists content_n,
    FixImports.files (runs n st) !! FixImports.target = Some content_n /\
    newline_terminated content_n = true /\
    length (FixImports.readlines content_n) =
      (length (FixImports.readlines content) + n * anchors content)%nat.
Proof.
  intros Hfile Hnl.
  destruct (runs_lines st content n Hfile Hnl)
    as (ls & Hf & Hls & _ & _ & Hlen).
  exists (FixImports.writelines ls).
  split; [assumption|]. split; [now apply writelines_terminated|].
  now rewrite (readlines_writelines ls Hls).
Qed.

Lemma X4_witness :
  exists content_n,
    FixImports.files (runs 3 FixImports.sample_state) !! FixImports.target
      = Some content_n /\
    newline_terminated content_n = true /\
    length (FixImports.readlines content_n) = (5 + 3 * 2)%nat.
Proof.
  apply (X4_fix_imports_runs_accumulate FixImports.sample_state
           FixImports.sample_page 3).
  - vm_compute. reflexivity.
  - vm_compute. reflexivity.
Defined.
(** X5.  The usual page: the first line holding the [Progress,] pattern
    comes before the first line holding the [@mantine/dates] pattern.  The
    lines written are then the lines read with the [Box] line right after
    the former and the [Dropzone] import right after the latter: the second
    loop, which scans the list the first one changed, still anchors on the
    line of the original file. *)
Theorem X5_patch_progress_before_dates (A B C : list string) x y :
  Forall (fun l => contains FixImports.progress_pat l = false) A ->
  contains FixImports.progress_pat x = true ->
  Forall (fun l => contains FixImports.dates_pat l = false) (A ++ x :: B) ->
  contains FixImports.dates_pat y = true ->
  FixImports.patch (A ++ x :: B ++ y :: C) =
    (A ++ x :: FixImports.box_line :: B ++ y :: FixImports.dropzone_line :: C)%list.
Proof.
  intros HA Hx HAB Hy. unfold FixImports.patch.
  rewrite (insert_after_match _ _ A _ x HA Hx).
  apply Forall_app in HAB as [HA' HxB]. apply Forall_cons in HxB as [Hx' HB].
  replace (A ++ x :: FixImports.box_line :: B ++ y :: C)%list
    with ((A ++ x :: FixImports.box_line :: B) ++ y :: C)%list
    by (now rewrite <- app_assoc).
  rewrite insert_after_match; [now rewrite <- app_assoc| |assumption].
  apply Forall_app. split; [assumption|].
  constructor; [assumption|]. constructor; [reflexivity|assumption].
Qed.

Lemma X5_witness :
  FixImports.patch (FixImports.readlines FixImports.sample_page) =
    ["import {" +:+ nl; "  Progress," +:+ nl; "  Box," +:+ nl;
     "} from '@mantine/core';" +:+ nl;
     "import { DatePicker } from '@mantine/dates';" +:+ nl;
     "import { Dropzone, FileWithPath } from '@mantine/dropzone';" +:+ nl;
     "export {};" +:+ nl].
Proof.
  apply (X5_patch_progress_before_dates
           ["import {" +:+ nl] ["} from '@mantine/core';" +:+ nl]
           ["export {};" +:+ nl] ("  Progress," +:+ nl)
           ("import { DatePicker } from '@mantine/dates';" +:+ nl)).
  - repeat constructor.
  - reflexivity.
  - repeat constructor.
  - reflexivity.
Defined.

(** X6.  When the first line holding the [Progress,] pattern is also the
    first line holding the [@mantine/dates] pattern, the second loop puts
    the [Dropzone] import between that line and the [Box] line the first
    loop added. *)
Theorem X6_patch_same_anchor (A C : list string) x :
  Forall (fun l => contains FixImports.progress_pat l = false) A ->
  Forall (fun l => contains FixImports.dates_pat l = false) A ->
  contains FixImports.progress_pat x = true ->
  contains FixImports.dates_pat x = true ->
  FixImports.patch (A ++ x :: C) =
    (A ++ x :: FixImports.dropzone_line :: FixImports.box_line :: C)%list.
Proof.
  intros HA HA' Hx Hx'. unfold FixImports.patch.
  rewrite (insert_after_match _ _ A _ x HA Hx).
  now rewrite (insert_after_match _ _ A _ x HA' Hx').
Qed.

Lemma X6_witness :
  FixImports.patch
    ["// header" +:+ nl; "  Progress, from '@mantine/dates';" +:+ nl; "end" +:+ nl] =
    ["// header" +:+ nl; "  Progress, from '@mantine/dates';" +:+ nl;
     FixImports.dropzone_line; FixImports.box_line; "end" +:+ nl].
Proof.
  apply (X6_patch_same_anchor ["// header" +:+ nl] ["end" +:+ nl]
           ("  Progress, from '@mantine/dates';" +:+ nl)).
  - repeat constructor.
  - repeat constructor.
  - reflexivity.
  - reflexivity.
Defined.

Section fix_imports_order.
Import FixImports.

Lemma insert_after_absent pat new (lines : list string) :
  existsb (contains pat) lines = false -> insert_after pat new lines = lines.
Proof.
  intros Hno. destruct (insert_after_cases pat new lines)
    as [[_ ->] | (b & x & a & He & _)]; [reflexivity|].
  rewrite Hno in He. discriminate.
Qed.

Lemma Forall_app_cons_inv {A} (P : A -> Prop) (l1 l2 : list A) x :
  Forall P (l1 ++ x :: l2) -> Forall P l1 /\ P x /\ Forall P l2.
Proof.
  intros H. apply Forall_app in H as [H1 H2].
  apply Forall_cons in H2 as [Hx H2]. auto.
Qed.

Lemma Forall_app_cons_new {A} (P : A -> Prop) (l1 l2 : list A) x new :
  Forall P (l1 ++ x :: l2) -> P new -> Forall P (l1 ++ x :: new :: l2).
Proof.
  intros H Hnew. apply Forall_app_cons_inv in H as (H1 & Hx & H2).
  apply Forall_app. split; [assumption|]. repeat constructor; assumption.
Qed.

End fix_imports_order.

(** X7.  Unless one line holds both patterns, the order of the two loops
    of [fix-imports.py] does not matter: adding the [Dropzone] import
    first and the [Box] line second gives the same lines. *)
Theorem X7_patch_loops_commute (lines : list string) :
  Forall (fun l => contains FixImports.progress_pat l
                   && contains FixImports.dates_pat l = false) lines ->
  FixImports.patch lines =
  FixImports.insert_after FixImports.progress_pat FixImports.box_line
    (FixImports.insert_after FixImports.dates_pat FixImports.dropzone_line lines).
Proof.
  intros Hboth. unfold FixImports.patch.
  destruct (insert_after_cases FixImports.progress_pat FixImports.box_line lines)
    as [[Hp Ep] | (b1 & x & a1 & Hp & El & Hb1 & Hx & Ep)].
  - rewrite Ep. symmetry. apply insert_after_absent.
    now rewrite insert_after_existsb by reflexivity.
  - destruct (insert_after_cases FixImports.dates_pat FixImports.dropzone_line lines)
      as [[Hd Ed] | (b2 & y & a2 & Hd & El2 & Hb2 & Hy & Ed)].
    + rewrite Ed. apply insert_after_absent.
      now rewrite insert_after_existsb by reflexivity.
    + rewrite Ep, Ed. clear Ep Ed Hp Hd. subst lines.
      apply app_eq_app in El2 as [l [[E1 E2]|[E1 E2]]].
      * destruct l as [|z l']; simpl in E2.
        { injection E2 as -> ->.
          apply Forall_app_cons_inv in Hboth as (_ & Hxy & _).
          rewrite Hx, Hy in Hxy. discriminate. }
        injection E2 as <- ->. subst b1.
        rewrite <- !app_assoc. simpl.
        rewrite (insert_after_match _ _ b2 _ y Hb2 Hy).
        replace (b2 ++ y :: FixImports.dropzone_line :: l' ++ x :: a1)%list
          with ((b2 ++ y :: FixImports.dropzone_line :: l') ++ x :: a1)%list
          by (now rewrite <- app_assoc).
        rewrite insert_after_match; [now rewrite <- app_assoc| |assumption].
        now apply Forall_app_cons_new.
      * destruct l as [|z l']; simpl in E2.
        { injection E2 as -> ->.
          apply Forall_app_cons_inv in Hboth as (_ & Hxy & _).
          rewrite Hx, Hy in Hxy. discriminate. }
        injection E2 as <- ->. subst b2.
        rewrite <- !app_assoc. simpl.
        rewrite (insert_after_match _ _ b1 _ x Hb1 Hx).
        replace (b1 ++ x :: FixImports.box_line :: l' ++ y :: a2)%list
          with ((b1 ++ x :: FixImports.box_line :: l') ++ y :: a2)%list
          by (now rewrite <- app_assoc).
        rewrite insert_after_match; [now rewrite <- app_assoc| |assumption].
        now apply Forall_app_cons_new.
Qed.

Lemma X7_witness :
  FixImports.patch (FixImports.readlines FixImports.sample_page) =
  FixImports.insert_after FixImports.progress_pat FixImports.box_line
    (FixImports.insert_after FixImports.dates_pat FixImports.dropzone_line
       (FixImports.readlines FixImports.sample_page)).
Proof.
  apply (X7_patch_loops_commute (FixImports.readlines FixImports.sample_page)).
  repeat constructor.
Defined.
(** ** The [sqlite3] lookup scripts: side effects, duplicates, failures *)






Lemma select_rows_Readable disk path q tabs rs :
  disk !! path = Some (Database tabs) ->
  select_rows q tabs = Ok rs ->
  exists t, condition_of disk path q = Readable t.
Proof.
  intros Hd. unfold select_rows, condition_of, has_columns. rewrite Hd.
  destruct (lookup_table (sel_table q) tabs) as [t|]; [|discriminate].
  destruct (find _ _) eqn:Hfind; [discriminate|]. intros _.
  apply find_missing_None in Hfind. rewrite Hfind. now exists t.
Qed.

(** X10.  When the store cannot be read, because the location cannot be
    opened, is not a database, or lacks the table or a requested field, a
    [sqlite3] lookup script ends by an exception of [connect] or [execute],
    having printed nothing and fetched nothing: its calls stop at [connect]
    when the location cannot be opened and at [execute] otherwise, and in
    the second case the connection it opened is still open. *)
Theorem X10_lookup_failure_is_silent l disk :
  l ∈ sqlite_lookups ->
  (forall t, condition_of disk (source l) (request l) ≠ Readable t) ->
  (exists e, (run (script l) disk).1 = Raise e) /\
  stdout (run (script l) disk).2 = "" /\
  (disk !! source l = Some Unopenable ->
   trace (run (script l) disk).2 = [EvConnect (source l)] /\
   handles (run (script l) disk).2 = []) /\
  (disk !! source l ≠ Some Unopenable ->
   trace (run (script l) disk).2
     = [EvConnect (source l); EvExecute (source l) (request l)] /\
   handles (run (script l) disk).2 = [source l]).
Proof.
  intros Hl Hc. rewrite (run_expected l disk Hl). unfold expected.
  destruct (disk !! source l) as [[| |tabs]|] eqn:Hd; simpl.
  - split; [eauto|]. split; [reflexivity|]. split; [auto|congruence].
  - split; [eauto|]. split; [reflexivity|]. split; [discriminate|auto].
  - destruct (select_rows (request l) tabs) as [rs|e] eqn:Es; simpl.
    + destruct (select_rows_Readable disk _ _ tabs rs Hd Es) as [t Ht].
      destruct (Hc t Ht).
    + split; [eauto|]. split; [reflexivity|]. split; [discriminate|auto].
  - split; [eauto|]. split; [reflexivity|]. split; [discriminate|auto].
Qed.

Lemma X10_witness :
  (exists e, (run query_feature narrow_disk).1 = Raise e) /\
  stdout (run query_feature narrow_disk).2 = "" /\
  (narrow_disk !! query_feature_path = Some Unopenable ->
   trace (run query_feature narrow_disk).2 = [EvConnect query_feature_path] /\
   handles (run query_feature narrow_disk).2 = []) /\
  (narrow_disk !! query_feature_path ≠ Some Unopenable ->
   trace (run query_feature narrow_disk).2
     = [EvConnect query_feature_path;
        EvExecute query_feature_path (request lookup_query)] /\
   handles (run query_feature narrow_disk).2 = [query_feature_path]).
Proof.
  assert (Hl : lookup_query ∈ sqlite_lookups)
    by (unfold sqlite_lookups; rewrite !elem_of_cons; auto).
  assert (Hc : forall t, condition_of narrow_disk (source lookup_query)
                           (request lookup_query) ≠ Readable t)
    by (intros t; vm_compute; discriminate).
  exact (X10_lookup_failure_is_silent lookup_query narrow_disk Hl Hc).
Defined.

(** ** [get-feature-74.py]: the session and the [finally] clause *)

(** X11.  Once [get-feature-74.py] has its session, the session is closed
    on every path: whether the query returns a feature, returns none or
    raises, and whether the rendering returns or raises, the calls made on
    the session are its opening and then [session.close()], and when that
    call returns no session is left open. *)
Theorem X11_get_feature_74_session_scoped
    (Feature : Type) environ resolve create_database session_maker
    (query_first : Z -> result (option Feature)) feature_bool to_json
    session_close disk :
  let dir := resolve (default "." (environ !! "PROJECT_DIR")) in
  let w := (run (get_feature_74 environ resolve create_database session_maker
                   query_first feature_bool to_json session_close) disk).2 in
  create_database dir = Ok tt -> session_maker = Ok tt ->
  trace w = [EvSession dir; EvSessionClose dir] /\
  (session_close = Ok tt -> handles w = []).
Proof.
  intros dir w Hd Hs. split.
  - now apply get_feature_74_closes_last.
  - apply get_feature_74_releases.
Qed.

Lemma X11_witness :
  let w := (run (get_feature_74 ∅ id api_create_ok (Ok tt) api_absent
                   (fun _ => true) api_to_json (Ok tt)) ∅).2 in
  trace w = [EvSession "."; EvSessionClose "."] /\
  (Ok tt = Ok tt -> handles w = []).
Proof.
  pose proof (X11_get_feature_74_session_scoped unit ∅ id api_create_ok
                (Ok tt) api_absent (fun _ => true) api_to_json (Ok tt) ∅
                eq_refl eq_refl) as H.
  rewrite lookup_empty in H. exact H.
Defined.

(** X12.  When [session.close()] raises in the [finally] clause, its
    exception is the one [get-feature-74.py] ends with, whatever the body
    did: the script exits with status 1 even after it has printed the
    feature or the absence message, and what it printed stays printed. *)
Theorem X12_get_feature_74_close_failure
    (Feature : Type) environ resolve create_database session_maker
    (query_first : Z -> result (option Feature)) feature_bool to_json
    session_close disk e :
  let dir := resolve (default "." (environ !! "PROJECT_DIR")) in
  let r := run (get_feature_74 environ resolve create_database session_maker
                  query_first feature_bool to_json session_close) disk in
  create_database dir = Ok tt -> session_maker = Ok tt ->
  session_close = Raise e ->
  r.1 = Raise e /\ exit_code r.1 = 1 /\
  (query_first 74 = Ok None ->
   stdout r.2 = "Feature #74 not found" +:+ nl) /\
  (forall f text, query_first 74 = Ok (Some f) -> feature_bool f = true ->
   to_json f = Ok text -> stdout r.2 = text +:+ nl) /\
  handles r.2 = [dir].
Proof.
  intros dir r Hd Hs Hc. subst r.
  cbv [run get_feature_74 boot bind try_finally lift open_session
       close_session log print fs handles stdout trace].
  fold dir. rewrite Hd, Hs, Hc. simpl.
  destruct (query_first 74) as [[f|]|?]; simpl.
  - destruct (feature_bool f) eqn:Hb; simpl.
    + destruct (to_json f) as [text|?] eqn:Ht; simpl;
        repeat split; try discriminate; intros f' text' [= <-] _ Ht';
        rewrite Ht in Ht'; [injection Ht' as <-; reflexivity | discriminate].
    + repeat split; try discriminate. intros f' text' [= <-] Hb'. congruence.
  - repeat split. intros f text Hq. discriminate.
  - repeat split; discriminate.
Qed.

Lemma X12_witness :
  let r := run (get_feature_74 ∅ id api_create_ok (Ok tt) api_absent
                  (fun _ => true) api_to_json
                  (Raise (ApiError "session is gone"))) ∅ in
  r.1 = Raise (ApiError "session is gone") /\ exit_code r.1 = 1 /\
  (api_absent 74 = Ok None ->
   stdout r.2 = "Feature #74 not found" +:+ nl) /\
  (forall f text, api_absent 74 = Ok (Some f) -> true = true ->
   api_to_json f = Ok text -> stdout r.2 = text +:+ nl) /\
  handles r.2 = ["."].
Proof.
  pose proof (X12_get_feature_74_close_failure unit ∅ id api_create_ok
                (Ok tt) api_absent (fun _ => true) api_to_json
                (Raise (ApiError "session is gone")) ∅
                (ApiError "session is gone") eq_refl eq_refl eq_refl) as H.
  rewrite lookup_empty in H. exact H.
Defined.

(** X13.  What goes wrong before the [try] block of [get-feature-74.py] is
    not covered by its [finally] clause.  When setting up the store raises,
    the script ends there: no session is asked for and nothing is printed.
    When [session_maker()] raises, the script ends with that exception
    without calling [session.close()]: there is no session to close. *)
Theorem X13_get_feature_74_before_try
    (Feature : Type) environ resolve create_database session_maker
    (query_first : Z -> result (option Feature)) feature_bool to_json
    session_close disk e :
  let dir := resolve (default "." (environ !! "PROJECT_DIR")) in
  let r := run (get_feature_74 environ resolve create_database session_maker
                  query_first feature_bool to_json session_close) disk in
  (create_database dir = Raise e -> r = (Raise e, boot disk)) /\
  (create_database dir = Ok tt -> session_maker = Raise e ->
   r = (Raise e, World disk [] "" [EvSession dir])).
Proof.
  intros dir r. subst r.
  cbv [run get_feature_74 boot bind try_finally lift open_session
       close_session log print fs handles stdout trace].
  fold dir. split.
  - intros ->. reflexivity.
  - intros -> ->. reflexivity.
Qed.

Lemma X13_witness :
  let r := run (get_feature_74 ∅ id api_create_fails (Ok tt) api_absent
                  (fun _ => true) api_to_json (Ok tt)) ∅ in
  (api_create_fails "." = Raise (ApiError "unable to open database file") ->
   r = (Raise (ApiError "unable to open database file"), boot ∅)) /\
  (api_create_fails "." = Ok tt ->
   Ok tt = Raise (ApiError "unable to open database file") ->
   r = (Raise (ApiError "unable to open database file"),
        World ∅ [] "" [EvSession "."])).
Proof.
  pose proof (X13_get_feature_74_before_try unit ∅ id api_create_fails
                (Ok tt) api_absent (fun _ => true) api_to_json (Ok tt) ∅
                (ApiError "unable to open database file")) as H.
  rewrite lookup_empty in H. exact H.
Defined.

(** ** [fix-imports.py]: the files it touches *)

(** X14.  [fix-imports.py] touches one file and creates none: when
    [ClientDetails.tsx] is missing it ends with [FileNotFoundError] before
    it writes or prints anything, and on every run the set of files is the
    same afterwards and every file but [ClientDetails.tsx] has the text it
    had. *)
Theorem X14_fix_imports_touches_only_target st :
  (FixImports.files st !! FixImports.target = None ->
   FixImports.fix_imports st = (Raise FileNotFoundError, st)) /\
  dom (FixImports.files (FixImports.fix_imports st).2)
    = dom (FixImports.files st) /\
  (forall p, p ≠ FixImports.target ->
     FixImports.files (FixImports.fix_imports st).2 !! p
       = FixImports.files st !! p).
Proof.
  unfold FixImports.fix_imports.
  destruct (FixImports.files st !! FixImports.target) as [content|] eqn:Hfile;
    simpl.
  - split; [discriminate|]. split.
    + rewrite dom_insert_L. apply subseteq_union_1_L.
      apply singleton_subseteq_l, elem_of_dom. eauto.
    + intros p Hp. now apply lookup_insert_ne.
  - auto.
Qed.

Lemma X14_witness :
  (FixImports.files (FixImports.State ∅ "") !! FixImports.target = None ->
   FixImports.fix_imports (FixImports.State ∅ "")
     = (Raise FileNotFoundError, FixImports.State ∅ "")) /\
  dom (FixImports.files (FixImports.fix_imports (FixImports.State ∅ "")).2)
    = dom (FixImports.files (FixImports.State ∅ "")) /\
  (forall p, p ≠ FixImports.target ->
     FixImports.files (FixImports.fix_imports (FixImports.State ∅ "")).2 !! p
       = FixImports.files (FixImports.State ∅ "") !! p).
Proof. exact (X14_fix_imports_touches_only_target (FixImports.State ∅ "")). Defined.
(** ** [fix-imports.py]: a last line without its line feed *)

Section fix_imports_last_line.
Import FixImports.

Lemma readlines_one_line last :
  one_line last = true -> last <> "" -> readlines last = [last].
Proof.
  induction last as [|c s IH]; [congruence|]. cbn [one_line readlines].
  intros H _. apply andb_true_iff in H as [Hc Hs].
  apply negb_true_iff in Hc. rewrite Hc.
  destruct s as [|d s']; [reflexivity|].
  now rewrite IH.
Qed.

Lemma readlines_app_lines ls rest :
  Forall (fun l => ends_line l = true) ls ->
  readlines (writelines ls +:+ rest) = (ls ++ readlines rest)%list.
Proof.
  induction 1 as [|l ls Hl _ IH]; [reflexivity|]. simpl.
  now rewrite append_assoc, (readlines_line l _ Hl), IH.
Qed.

Lemma ends_line_append a b :
  one_line a = true -> ends_line b = true -> ends_line (a +:+ b) = true.
Proof.
  intros Ha Hb. induction a as [|c a IH]; [exact Hb|].
  cbn [one_line] in Ha. apply andb_true_iff in Ha as [Hc Ha].
  apply negb_true_iff in Hc.
  change (String c a +:+ b) with (String c (a +:+ b)).
  cbn [ends_line]. rewrite Hc. now apply IH.
Qed.

Lemma append_nil_r (s : string) : s +:+ "" = s.
Proof. induction s as [|c s IH]; [reflexivity|]. exact (f_equal (String c) IH). Qed.

Lemma lines_without_pattern p c :
  contains p c = false ->
  Forall (fun l => contains p l = false) (readlines c).
Proof.
  intros Hc. apply List.Forall_forall. intros l Hin.
  destruct (contains p l) eqn:Hl; [|reflexivity].
  now rewrite (contains_line_content p l c Hin Hl) in Hc.
Qed.

End fix_imports_last_line.

(** X15.  The edge the script does not guard against: when the first line
    holding the [Progress,] pattern is the last line of the file and has no
    line feed, the [Box] text is written right behind it, on the same line
    of the file, not on a line of its own. *)
Theorem X15_fix_imports_joins_unterminated_line st body last :
  FixImports.files st !! FixImports.target = Some (body +:+ last) ->
  newline_terminated body = true ->
  one_line last = true ->
  contains FixImports.progress_pat body = false ->
  contains FixImports.progress_pat last = true ->
  contains FixImports.dates_pat (body +:+ last) = false ->
  FixImports.files (FixImports.fix_imports st).2 !! FixImports.target
    = Some (body +:+ last +:+ FixImports.box_line) /\
  FixImports.readlines (body +:+ last +:+ FixImports.box_line)
    = (FixImports.readlines body ++ [last +:+ FixImports.box_line])%list.
Proof.
  intros Hfile Hbody Hone Hpb Hpl Hd.
  assert (Hne : last <> "") by (intros ->; discriminate).
  pose proof (readlines_terminated body Hbody) as Hls.
  assert (Hlines : FixImports.readlines (body +:+ last)
                   = (FixImports.readlines body ++ [last])%list).
  { rewrite <- (writelines_readlines body) at 1.
    rewrite (readlines_app_lines _ _ Hls).
    now rewrite (readlines_one_line last Hone Hne). }
  assert (Hend : FixImports.readlines (last +:+ FixImports.box_line)
                 = [last +:+ FixImports.box_line]).
  { assert (Hbox : ends_line FixImports.box_line = true) by reflexivity.
    pose proof (readlines_line (last +:+ FixImports.box_line) ""
                  (ends_line_append _ _ Hone Hbox)) as H.
    now rewrite append_nil_r in H. }
  split.
  - unfold FixImports.fix_imports. rewrite Hfile. simpl.
    rewrite lookup_insert_eq. f_equal. unfold FixImports.patch.
    rewrite Hlines.
    rewrite (insert_after_match _ _ _ [] last
               (lines_without_pattern _ _ Hpb) Hpl).
    rewrite insert_after_no_match.
    + rewrite writelines_app, writelines_readlines. simpl.
      now rewrite append_nil_r.
    + apply lines_without_pattern in Hd. rewrite Hlines in Hd.
      now apply Forall_app_cons_new.
  - rewrite <- (writelines_readlines body) at 1.
    rewrite (readlines_app_lines _ _ Hls). now rewrite Hend.
Qed.

Lemma X15_witness :
  FixImports.files
    (FixImports.fix_imports
       (FixImports.State
          {[ FixImports.target := ("import {" +:+ nl) +:+ "  Progress," ]} "")).2
    !! FixImports.target
    = Some (("import {" +:+ nl) +:+ "  Progress," +:+ FixImports.box_line) /\
  FixImports.readlines
    (("import {" +:+ nl) +:+ "  Progress," +:+ FixImports.box_line)
    = (FixImports.readlines ("import {" +:+ nl)
       ++ ["  Progress," +:+ FixImports.box_line])%list.
Proof.
  apply (X15_fix_imports_joins_unterminated_line
           (FixImports.State
              {[ FixImports.target := ("import {" +:+ nl) +:+ "  Progress," ]} "")
           ("import {" +:+ nl) "  Progress,");
    vm_compute; reflexivity.
Defined.
